(** * test-echo: the echo server for the Extron front-end API

    A shallow embedding of the two Go programs of the repository:

    - [ServerGo]: [src/server.go], which dials the processor once in [main]
      and hands that connection to the ticker;
    - [Part000]: [src/unnamed/part_000], which keeps the connection in the
      globals [conn], [connErr], [connMu] and re-dials after a failed write.

    Go strings and byte slices are byte sequences: [string] here, one
    [ascii] per byte.  A nil-able value ([error], [net.Conn], a possibly nil
    [[]byte]) is an [option].  Everything the programs do to the outside
    (sockets, stdout) is recorded in an explicit [World]; what the outside
    answers (does a dial connect, does a write succeed, what time is it, does
    the body decode) is an input of the operation that asks. *)

From Stdlib Require Import String Ascii List NArith ZArith Bool Arith Lia Zify.
Import ListNotations.
Local Open Scope string_scope.

(** ** Go basics *)

(** An [error] value, identified by its message; [None] is Go's [nil]. *)
Definition error := string.

(** [slices.Contains] on strings. *)
Definition slices_Contains (l : list string) (x : string) : bool :=
  existsb (fun y => String.eqb y x) l.

(** ** The two JSON shapes (declared identically in both files) *)

Record Response := mkResponse {
  Type_ : string;      (* `json:"type"` *)
  Object : string;     (* `json:"object"` *)
  Function_ : string;  (* `json:"function"` *)
  Arg1 : string;       (* `json:"arg1"` *)
  Arg2 : string;       (* `json:"arg2"` *)
  Arg3 : string        (* `json:"arg3"` *)
}.

Record Rx := mkRx {
  Name : string;    (* `json:"name"` *)
  Action : string;  (* `json:"action"` *)
  Value : string    (* `json:"value,omitempty"`; the empty string when absent *)
}.

(** ** encoding/json, the encoder

    [json.Marshal] is Go's library, not code of the repository.  It is
    modelled over the shapes of value reflection can meet: the encoder fails
    on channels, functions and complex numbers, and encodes a struct field
    by field.  Strings are quoted as [appendString] does with HTML escaping
    on (the default of [Marshal]), Go 1.22 and later. *)
Module json.

#[warnings="-register-all"]
Inductive value : Type :=
| String_ (s : string)
| Bool_ (b : bool)
| Nil_
| Struct_ (fields : list (string * value))
| Chan_
| Func_
| Complex_.

Definition dquote : ascii := "034"%char.
Definition backslash : ascii := "092"%char.

Definition hex (n : N) : ascii :=
  nth (N.to_nat n) (list_ascii_of_string "0123456789abcdef") "0"%char.

(** [htmlSafeSet]: the ASCII bytes copied as they are. *)
Definition htmlSafe (b : ascii) : bool :=
  let n := N_of_ascii b in
  (32 <=? n)%N && (n <? 128)%N
  && negb (Ascii.eqb b dquote) && negb (Ascii.eqb b backslash)
  && negb (Ascii.eqb b "<"%char) && negb (Ascii.eqb b ">"%char)
  && negb (Ascii.eqb b "&"%char).

(** The escape of an ASCII byte outside [htmlSafeSet]. *)
Definition escapeByte (b : ascii) : string :=
  let n := N_of_ascii b in
  if Ascii.eqb b backslash || Ascii.eqb b dquote then String backslash (String b "")
  else if (n =? 8)%N then String backslash "b"
  else if (n =? 12)%N then String backslash "f"
  else if (n =? 10)%N then String backslash "n"
  else if (n =? 13)%N then String backslash "r"
  else if (n =? 9)%N then String backslash "t"
  else String backslash
         ("u00" ++ String (hex (N.shiftr n 4)) (String (hex (N.land n 15)) "")).

Definition continuation (b : ascii) : bool :=
  let n := N_of_ascii b in (128 <=? n)%N && (n <=? 191)%N.

Definition between (lo hi : N) (b : ascii) : bool :=
  let n := N_of_ascii b in (lo <=? n)%N && (n <=? hi)%N.

(** [utf8.DecodeRuneInString] as far as the encoder needs it: the width of
    the well-formed UTF-8 sequence [s] starts with, [0] when there is none
    (Go answers [(RuneError, 1)]). *)
Definition runeWidth (s : string) : nat :=
  match s with
  | EmptyString => 0
  | String b0 rest =>
    let n0 := N_of_ascii b0 in
    if (n0 <? 128)%N then 1
    else if (n0 <? 194)%N then 0
    else if (n0 <? 224)%N then
      match rest with
      | String b1 _ => if continuation b1 then 2 else 0
      | _ => 0
      end
    else if (n0 <? 240)%N then
      match rest with
      | String b1 (String b2 _) =>
        let lo := if (n0 =? 224)%N then 160%N else 128%N in
        let hi := if (n0 =? 237)%N then 159%N else 191%N in
        if between lo hi b1 && continuation b2 then 3 else 0
      | _ => 0
      end
    else if (n0 <? 245)%N then
      match rest with
      | String b1 (String b2 (String b3 _)) =>
        let lo := if (n0 =? 240)%N then 144%N else 128%N in
        let hi := if (n0 =? 244)%N then 143%N else 191%N in
        if between lo hi b1 && continuation b2 && continuation b3 then 4 else 0
      | _ => 0
      end
    else 0
  end.

(** U+2028 and U+2029 (bytes E2 80 A8, E2 80 A9) are escaped although valid. *)
Definition lineSeparator (s : string) : option ascii :=
  match s with
  | String b0 (String b1 (String b2 _)) =>
    if (N_of_ascii b0 =? 226)%N && (N_of_ascii b1 =? 128)%N
       && ((N_of_ascii b2 =? 168)%N || (N_of_ascii b2 =? 169)%N)
    then Some (hex (N.land (N_of_ascii b2) 15)) else None
  | _ => None
  end.

(** What the scan does with the bytes after the first of a rune. *)
Inductive pending := Scan | Copy (n : nat) | Drop (n : nat).

(** The loop of [appendString], between the quotes. *)
Fixpoint escape (p : pending) (s : string) : string :=
  match s with
  | EmptyString => EmptyString
  | String b rest =>
    match p with
    | Copy (S k) => String b (escape (Copy k) rest)
    | Drop (S k) => escape (Drop k) rest
    | _ =>
      if (N_of_ascii b <? 128)%N then
        (if htmlSafe b then String b "" else escapeByte b) ++ escape Scan rest
      else
        match runeWidth s with
        | O => String backslash "ufffd" ++ escape Scan rest
        | S k =>
          match lineSeparator s with
          | Some h => String backslash ("u202" ++ String h "") ++ escape (Drop k) rest
          | None => String b (escape (Copy k) rest)
          end
        end
    end
  end.

Definition appendString (s : string) : string :=
  String dquote (escape Scan s ++ String dquote "").

(** The encoder: [inl] the bytes, [inr] the error. *)
Fixpoint encode (v : value) : string + error :=
  match v with
  | String_ s => inl (appendString s)
  | Bool_ b => inl (if b then "true" else "false")
  | Nil_ => inl "null"
  | Struct_ fields =>
    let fix members (first : bool) (fs : list (string * value)) : string + error :=
      match fs with
      | [] => inl "}"
      | (k, v) :: fs' =>
        match encode v, members false fs' with
        | inl bv, inl tail =>
          inl ((if first then "" else ",") ++ appendString k ++ ":" ++ bv ++ tail)
        | inr e, _ => inr e
        | _, inr e => inr e
        end
      end in
    match members true fields with
    | inl body => inl ("{" ++ body)
    | inr e => inr e
    end
  | Chan_ => inr "json: unsupported type: chan"
  | Func_ => inr "json: unsupported type: func()"
  | Complex_ => inr "json: unsupported type: complex128"
  end.

(** What reflection sees of a [Response]: six string fields under their tags. *)
Definition reflect (r : Response) : value :=
  Struct_ [("type", String_ (Type_ r)); ("object", String_ (Object r));
           ("function", String_ (Function_ r)); ("arg1", String_ (Arg1 r));
           ("arg2", String_ (Arg2 r)); ("arg3", String_ (Arg3 r))].

(** [json.Marshal(response)]: the pair [([]byte, error)]. *)
Definition Marshal (r : Response) : option string * option error :=
  match encode (reflect r) with
  | inl b => (Some b, None)
  | inr e => (None, Some e)
  end.

End json.

(** ** time: the wall clock and the two layouts in use

    [Format] works on the absolute local time of the instant, [abs] seconds
    (the zone offset already applied) and [nsec] nanoseconds within the
    second, below 10^9 in every [Time] Go builds. *)
Module time.

Record Time := mkTime { abs : N; nsec : N }.

Definition secondsPerDay : N := 86400.

Definition Hour (t : Time) : N := (abs t mod secondsPerDay) / 3600.
Definition Minute (t : Time) : N := (abs t mod 3600) / 60.
Definition Second (t : Time) : N := abs t mod 60.
Definition Nanosecond (t : Time) : N := nsec t.

Definition digit (d : N) : ascii := ascii_of_N (48 + d).

(** The [width] low decimal digits of [x], most significant first. *)
Fixpoint digits (width : nat) (x : N) : string :=
  match width with
  | O => EmptyString
  | S k => String (digit ((x / 10 ^ N.of_nat k) mod 10)) (digits k x)
  end.

(** [appendInt(b, x, width)] where [x < 10^width], as for a clock field. *)
Definition appendInt (x : N) (width : nat) : string := digits width x.

(** [formatNano(b, nanosec, n, false)]: a point and the first [n] of the
    nine digits of the nanosecond. *)
Definition formatNano (nanosec : N) (n : nat) : string :=
  String "."%char (digits n (nanosec / 10 ^ N.of_nat (9 - n))).

(** The chunks [nextStdChunk] cuts a layout into. *)
Inductive chunk :=
| stdHour                      (* "15" *)
| stdZeroMinute                (* "04" *)
| stdZeroSecond                (* "05" *)
| stdFracSecond0 (n : nat)     (* ".0", ".00", ...: n digits *)
| literal (c : ascii).

Definition appendChunk (t : Time) (c : chunk) : string :=
  match c with
  | stdHour => appendInt (Hour t) 2
  | stdZeroMinute => appendInt (Minute t) 2
  | stdZeroSecond => appendInt (Second t) 2
  | stdFracSecond0 n => formatNano (Nanosecond t) n
  | literal c => String c EmptyString
  end.

Definition Format (layout : list chunk) (t : Time) : string :=
  fold_right (fun c out => appendChunk t c ++ out) EmptyString layout.

(** The layout "15:04:05" of server.go. *)
Definition layout_15_04_05 : list chunk :=
  [stdHour; literal ":"; stdZeroMinute; literal ":"; stdZeroSecond].

(** The layout "15:04:05.00" of part_000. *)
Definition layout_15_04_05_00 : list chunk :=
  layout_15_04_05 ++ [stdFracSecond0 2].

End time.

(** ** net/http, as far as the programs use it *)
Module http.

Definition StatusOK : nat := 200.
Definition StatusBadRequest : nat := 400.
Definition StatusInternalServerError : nat := 500.

Definition Header := list (string * string).

Definition Header_Set (k v : string) (h : Header) : Header :=
  (k, v) :: filter (fun kv => negb (String.eqb (fst kv) k)) h.

(** What a handler has done to its [http.ResponseWriter]: the header map,
    the status once written, the body bytes. *)
Record ResponseWriter := mkWriter {
  header : Header;
  status : option nat;
  written : string
}.

Definition newWriter : ResponseWriter := mkWriter [] None "".

(** [w.Header().Set(k, v)]: without effect once the status line is out. *)
Definition SetHeader (k v : string) (w : ResponseWriter) : ResponseWriter :=
  match status w with
  | None => mkWriter (Header_Set k v (header w)) None (written w)
  | Some _ => w
  end.

Definition WriteHeader (code : nat) (w : ResponseWriter) : ResponseWriter :=
  match status w with
  | None => mkWriter (header w) (Some code) (written w)
  | Some _ => w
  end.

(** [w.Write(b)]: the first write sends status 200 if none was sent; a nil
    slice adds no byte. *)
Definition Write (b : option string) (w : ResponseWriter) : ResponseWriter :=
  let w := WriteHeader StatusOK w in
  mkWriter (header w) (status w)
           (written w ++ match b with Some s => s | None => "" end).

Definition newline : string := String "010"%char "".

(** [http.Error(w, msg, code)]. *)
Definition Error (msg : string) (code : nat) (w : ResponseWriter) : ResponseWriter :=
  let w := SetHeader "Content-Type" "text/plain; charset=utf-8" w in
  let w := SetHeader "X-Content-Type-Options" "nosniff" w in
  let w := WriteHeader code w in
  Write (Some (msg ++ newline)) w.

(** An outbound request, as [http.NewRequest] builds it. *)
Record Request := mkRequest {
  Method : string;
  URL : string;
  ReqHeader : Header;
  ReqBody : string
}.

(** [httpguts.IsTokenRune]. *)
Definition isToken (c : ascii) : bool :=
  let n := N_of_ascii c in
  ((48 <=? n) && (n <=? 57) || (65 <=? n) && (n <=? 90)
   || (97 <=? n) && (n <=? 122))%N
  || existsb (Ascii.eqb c) (list_ascii_of_string "!#$%&'*+-.^_`|~").

Definition validMethod (m : string) : bool :=
  negb (String.eqb m "") && forallb isToken (list_ascii_of_string m).

(** [http.NewRequest(method, url, bytes.NewBuffer(body))].  It refuses an
    invalid method; of the URLs only "/" is ever passed, which parses. *)
Definition NewRequest (method url : string) (body : option string)
  : option Request * option error :=
  if validMethod method
  then (Some (mkRequest method url []
                match body with Some s => s | None => "" end), None)
  else (None, Some ("net/http: invalid method " ++ method)).

Definition Request_SetHeader (k v : string) (r : Request) : Request :=
  mkRequest (Method r) (URL r) (Header_Set k v (ReqHeader r)) (ReqBody r).

End http.

(** ** The world outside the program *)

(** A [net.Conn]: the socket a successful dial returned. *)
Definition fd := nat.

Inductive LogEvent :=
| Println (words : list string)       (* fmt.Println(words...) *)
| PrintlnConnected (c : fd)           (* fmt.Println("Connected", local, ">", remote) *)
| PrintRx (rx : Rx)                   (* fmt.Print(rx) *)
| PrintResponse (r : Response).       (* fmt.Print(response) *)

(** One [req.Write(conn)]: the socket, the request, how the write ended. *)
Record Written := mkWritten {
  to : fd;
  frame : http.Request;
  result : option error
}.

Record World := mkWorld {
  conn : option fd;        (* part_000: var conn net.Conn *)
  connErr : option error;  (* part_000: var connErr error *)
  connMu : bool;           (* part_000: var connMu sync.Mutex, true = held *)
  open : list fd;          (* sockets dialled and not closed since *)
  next : fd;               (* the next socket a dial will return *)
  dials : nat;             (* calls of net.Dial so far *)
  wire : list Written;     (* every req.Write so far, latest first *)
  stdout : list LogEvent   (* everything printed, latest first *)
}.

Definition initial : World := mkWorld None None false [] 0 0 [] [].

(** What the outside answers when asked: [None] is success. *)
Record Env := mkEnv {
  dial : option error;
  write : option error
}.

(** The body decoder of a handler: [json.NewDecoder(r.Body).Decode(&rx)],
    Go's library, taken as it is. *)
Definition Decoder := string -> Rx + error.

(** ** The monad of a Go function body: it returns, panics, or blocks on
    the mutex for ever. *)
Inductive Outcome (A : Type) :=
| Return (a : A)
| Panic (why : string)
| Blocked.
Arguments Return {A} a.
Arguments Panic {A} why.
Arguments Blocked {A}.

Definition M (A : Type) := World -> Outcome A * World.

Definition ret {A} (a : A) : M A := fun w => (Return a, w).

Definition bind {A B} (m : M A) (k : A -> M B) : M B :=
  fun w =>
    match m w with
    | (Return a, w') => k a w'
    | (Panic why, w') => (Panic why, w')
    | (Blocked, w') => (Blocked, w')
    end.

Notation "x <- m ;; k" := (bind m (fun x => k))
  (at level 61, m at next level, right associativity).
Notation "m ;; k" := (bind m (fun _ => k))
  (at level 61, right associativity).

Definition get : M World := fun w => (Return w, w).
Definition modify (f : World -> World) : M unit := fun w => (Return tt, f w).

(** [defer d] around [body]: [d] runs when [body] returns or panics. *)
Definition defer {A} (d : M unit) (body : M A) : M A :=
  fun w =>
    match body w with
    | (Return a, w') =>
      match d w' with
      | (Return _, w'') => (Return a, w'')
      | (Panic why, w'') => (Panic why, w'')
      | (Blocked, w'') => (Blocked, w'')
      end
    | (Panic why, w') =>
      match d w' with
      | (Blocked, w'') => (Blocked, w'')
      | (_, w'') => (Panic why, w'')
      end
    | (Blocked, w') => (Blocked, w')
    end.

Definition set_conn (c : option fd) (e : option error) (w : World) : World :=
  mkWorld c e (connMu w) (open w) (next w) (dials w) (wire w) (stdout w).
Definition set_connMu (b : bool) (w : World) : World :=
  mkWorld (conn w) (connErr w) b (open w) (next w) (dials w) (wire w) (stdout w).
Definition set_open (l : list fd) (w : World) : World :=
  mkWorld (conn w) (connErr w) (connMu w) l (next w) (dials w) (wire w) (stdout w).
Definition add_wire (x : Written) (w : World) : World :=
  mkWorld (conn w) (connErr w) (connMu w) (open w) (next w) (dials w)
          (x :: wire w) (stdout w).
Definition add_stdout (e : LogEvent) (w : World) : World :=
  mkWorld (conn w) (connErr w) (connMu w) (open w) (next w) (dials w)
          (wire w) (e :: stdout w).

Definition fmt_Println (words : list string) : M unit := modify (add_stdout (Println words)).
Definition fmt_Print (e : LogEvent) : M unit := modify (add_stdout e).

(** [net.Dial("tcp", addr)] answered by [answer]: a fresh open socket, or
    [(nil, err)]. *)
Definition net_Dial (answer : option error) : M (option fd * option error) :=
  fun w =>
    match answer with
    | None =>
      (Return (Some (next w), None),
       mkWorld (conn w) (connErr w) (connMu w) (next w :: open w) (S (next w))
               (S (dials w)) (wire w) (stdout w))
    | Some e =>
      (Return (None, Some e),
       mkWorld (conn w) (connErr w) (connMu w) (open w) (next w)
               (S (dials w)) (wire w) (stdout w))
    end.

Definition nilDereference : string :=
  "runtime error: invalid memory address or nil pointer dereference".

(** [c.Close()]. *)
Definition Close (c : option fd) : M unit :=
  match c with
  | None => fun w => (Panic nilDereference, w)
  | Some f => modify (fun w => set_open (filter (fun g => negb (Nat.eqb g f)) (open w)) w)
  end.

(** [c.LocalAddr()], [c.RemoteAddr()]: only that [c] is not nil matters. *)
Definition Addrs (c : option fd) : M fd :=
  match c with
  | None => fun w => (Panic nilDereference, w)
  | Some f => ret f
  end.

Definition errClosed : error := "use of closed network connection".

(** [req.Write(c)] answered by [answer]: a write on a socket closed on this
    side fails whatever the peer does. *)
Definition req_Write (req : http.Request) (c : option fd) (answer : option error)
  : M (option error) :=
  match c with
  | None => fun w => (Panic nilDereference, w)
  | Some f =>
    fun w =>
      let r := if existsb (Nat.eqb f) (open w) then answer else Some errClosed in
      (Return r, add_wire (mkWritten f req r) w)
  end.

(** [sync.Mutex] on [connMu]. *)
Definition Lock : M unit :=
  fun w => if connMu w then (Blocked, w) else (Return tt, set_connMu true w).
Definition Unlock : M unit :=
  fun w => if connMu w then (Return tt, set_connMu false w)
           else (Panic "sync: unlock of unlocked mutex", w).

(** ** src/server.go *)
Module ServerGo.

Definition ServerAddr : string := "192.168.253.8:8080".
Definition ProcessorAddr : string := "192.168.253.254:8081".
Definition testLabel : string := "Lbl_Time".
Definition dontToggleButtons : list string := ["Btn_NoTog"].
Definition contentType : string := "application/json".

Definition replyTestHandler (w : http.ResponseWriter) : M http.ResponseWriter :=
  ret (http.Write (Some "OK") w).

Definition btnVisStateToggle (rx : Rx) : M (option string * option error) :=
  if slices_Contains dontToggleButtons (Name rx) then ret (None, None)
  else
    let state := "0" in
    let state := if String.eqb (Value rx) "0" then "1" else state in
    let response := mkResponse "Button" (Name rx) "SetState" state "" "" in
    fmt_Print (PrintResponse response) ;;
    ret (json.Marshal response).

Section Handlers.
Variable Decode : Decoder.

Definition replyButtonHandler (w : http.ResponseWriter) (body : string)
  : M http.ResponseWriter :=
  match Decode body with
  | inr _ => ret (http.Error "Invalid JSON data" http.StatusBadRequest w)
  | inl rx =>
    fmt_Print (PrintRx rx) ;;
    r <- btnVisStateToggle rx ;;
    let '(reply, err) := r in
    match err with
    | Some e => ret (http.Error e http.StatusInternalServerError w)
    | None =>
      let w := http.SetHeader "Content-Type" contentType w in
      ret (http.Write reply w)
    end
  end.

Definition replySliderHandler (w : http.ResponseWriter) (body : string)
  : M http.ResponseWriter :=
  match Decode body with
  | inr _ => ret (http.Error "Invalid JSON data" http.StatusBadRequest w)
  | inl rx =>
    fmt_Print (PrintRx rx) ;;
    let name := Name rx in
    let value := Value rx in
    let response := mkResponse "Slider" name "SetFill" value "" "" in
    fmt_Print (PrintResponse response) ;;
    let '(reply, err) := json.Marshal response in
    match err with
    | Some e => ret (http.Error e http.StatusInternalServerError w)
    | None =>
      let w := http.SetHeader "Content-Type" contentType w in
      ret (http.Write reply w)
    end
  end.

End Handlers.

(** The label command of one tick. *)
Definition timeLabel (now : time.Time) : Response :=
  mkResponse "Label" testLabel "SetText" (time.Format time.layout_15_04_05 now) "" "".

(** [sendTestSetLabel(conn)]: [now] is what [time.Now()] returns, [answer]
    how the write ends. *)
Definition sendTestSetLabel (c : option fd) (now : time.Time) (answer : option error)
  : M unit :=
  let response := timeLabel now in
  let '(reply, err) := json.Marshal response in
  match err with
  | Some e => fmt_Println ["Error creating response:"; e]
  | None =>
    let '(req, err) := http.NewRequest "POST" "/" reply in
    match err, req with
    | Some e, _ => fmt_Println ["Error creating HTTP request:"; e]
    | None, None => fun w => (Panic nilDereference, w)
    | None, Some req =>
      let req := http.Request_SetHeader "Content-Type" contentType req in
      err <- req_Write req c answer ;;
      match err with
      | Some e => fmt_Println ["Error sending HTTP request:"; e]
      | None => ret tt
      end
    end
  end.

(** The goroutine [main] starts, over the ticks its channel has delivered
    so far: one [sendTestSetLabel(conn)] per tick. *)
Fixpoint ticker (c : option fd) (ticks : list (time.Time * option error)) : M unit :=
  match ticks with
  | [] => ret tt
  | (now, answer) :: rest => sendTestSetLabel c now answer ;; ticker c rest
  end.

(** What reaches the process once [main] serves. *)
Inductive Event :=
| Tick (now : time.Time) (answer : option error)
| Button (body : string)
| Slider (body : string)
| Test.

(** The process: serving with the connection [main] dialled, ended by
    [main] returning, or killed by a panic outside a handler. *)
Inductive Process :=
| Running (c : option fd) (w : World)
| Exited (w : World)
| Crashed (w : World).

(** [main] up to the point where [http.ListenAndServe] serves or fails:
    [dialled] is what [net.Dial] answers, [listen] what [ListenAndServe]
    returns at once, if anything. *)
Definition main (dialled listen : option error) (w : World) : Process :=
  match net_Dial dialled w with
  | (Return (c, Some e), w) =>
    let w := add_stdout (Println ["Error connecting to client:"; e]) w in
    Exited w
  | (Return (c, None), w) =>
    let w := add_stdout (Println ["Starting server at"; ServerAddr]) w in
    match listen with
    | Some e =>
      let w := add_stdout (Println ["Error starting server:"; e]) w in
      (* defer conn.Close() *)
      match Close c w with
      | (Return _, w) => Exited w
      | (_, w) => Crashed w
      end
    | None => Running c w
    end
  | (_, w) => Crashed w
  end.

Section Serving.
Variable Decode : Decoder.

(** One event delivered to the process: the next process, and the response
    of a request that got one.  net/http recovers a handler's panic; a panic
    of the ticker goroutine ends the process. *)
Definition deliver (p : Process) (e : Event) : Process * option http.ResponseWriter :=
  match p with
  | Running c w =>
    match e with
    | Tick now answer =>
      match sendTestSetLabel c now answer w with
      | (Return _, w') => (Running c w', None)
      | (_, w') => (Crashed w', None)
      end
    | Button body =>
      match replyButtonHandler Decode http.newWriter body w with
      | (Return r, w') => (Running c w', Some r)
      | (_, w') => (Running c w', None)
      end
    | Slider body =>
      match replySliderHandler Decode http.newWriter body w with
      | (Return r, w') => (Running c w', Some r)
      | (_, w') => (Running c w', None)
      end
    | Test =>
      match replyTestHandler http.newWriter w with
      | (Return r, w') => (Running c w', Some r)
      | (_, w') => (Running c w', None)
      end
    end
  | _ => (p, None)
  end.

Definition run (p : Process) (es : list Event) : Process :=
  fold_left (fun p e => fst (deliver p e)) es p.

End Serving.

End ServerGo.

(** ** src/unnamed/part_000 *)
Module Part000.

Definition ServerAddr : string := "192.168.253.8:8080".
Definition ProcessorAddr : string := "192.168.253.254:8081".
Definition testLabel : string := "Lbl_Time".
Definition dontToggleButtons : list string := ["Btn_NoTog"].
Definition contentType : string := "application/json".

(** [getConn()]: [answer] is what [net.Dial] says if it is called. *)
Definition getConn (answer : option error) : M (option fd * option error) :=
  Lock ;;
  defer Unlock
    (w <- get ;;
     early <-
       match conn w with
       | None =>
         fmt_Println ["No existing connection.  Attempting to establish."] ;;
         r <- net_Dial answer ;;
         modify (set_conn (fst r) (snd r)) ;;
         w <- get ;;
         match connErr w with
         | Some e => ret (Some (None, connErr w))
         | None =>
           c <- Addrs (conn w) ;;
           fmt_Print (PrintlnConnected c) ;;
           ret None
         end
       | Some _ => ret None
       end ;;
     match early with
     | Some r => ret r
     | None => w <- get ;; ret (conn w, None)
     end).

Definition closeConn : M unit :=
  Lock ;;
  defer Unlock
    (w <- get ;;
     match conn w with
     | Some _ =>
       Close (conn w) ;;
       modify (fun w => set_conn None (connErr w) w)
     | None => ret tt
     end).

Definition sendToProcessor (env : Env) (data_to_send : option string) : M unit :=
  r <- getConn (dial env) ;;
  let '(conn, err) := r in
  match err with
  | Some e => fmt_Println ["Error connecting to client:"; e]
  | None =>
    let '(req, err) := http.NewRequest "POST" "/" data_to_send in
    match err, req with
    | Some e, _ => fmt_Println ["Error creating HTTP request:"; e]
    | None, None => fun w => (Panic nilDereference, w)
    | None, Some req =>
      let req := http.Request_SetHeader "Content-Type" contentType req in
      err <- req_Write req conn (write env) ;;
      match err with
      | Some e =>
        fmt_Println ["Error sending HTTP request:"; e] ;;
        closeConn
      | None => ret tt
      end
    end
  end.

(** The label command of one tick. *)
Definition timeLabel (now : time.Time) : Response :=
  mkResponse "Label" testLabel "SetText" (time.Format time.layout_15_04_05_00 now) "" "".

Definition sendTestSetLabel (now : time.Time) (env : Env) : M unit :=
  let response := timeLabel now in
  let '(data_to_send, err) := json.Marshal response in
  match err with
  | Some e => fmt_Println ["Error creating response:"; e]
  | None => sendToProcessor env data_to_send
  end.

(** [startTicker()], over the ticks its channel has delivered so far: one
    [sendTestSetLabel()] per tick, each with the time it reads and the
    answers it gets.  The loop has no exit of its own; a panic of a call
    leaves it. *)
Fixpoint startTicker (ticks : list (time.Time * Env)) : M unit :=
  match ticks with
  | [] => ret tt
  | (now, env) :: rest => sendTestSetLabel now env ;; startTicker rest
  end.

Definition replyTestHandler (w : http.ResponseWriter) : M http.ResponseWriter :=
  ret (http.Write (Some "OK") w).

Definition btnVisStateToggle (rx : Rx) : M (option string * option error) :=
  if slices_Contains dontToggleButtons (Name rx) then ret (None, None)
  else
    let state := "0" in
    let state := if String.eqb (Value rx) "0" then "1" else state in
    let response := mkResponse "Button" (Name rx) "SetState" state "" "" in
    fmt_Print (PrintResponse response) ;;
    ret (json.Marshal response).

Section Handlers.
Variable Decode : Decoder.

Definition replyButtonHandler (w : http.ResponseWriter) (body : string)
  : M http.ResponseWriter :=
  match Decode body with
  | inr _ => ret (http.Error "Invalid JSON data" http.StatusBadRequest w)
  | inl rx =>
    fmt_Print (PrintRx rx) ;;
    r <- btnVisStateToggle rx ;;
    let '(reply, err) := r in
    match err with
    | Some e => ret (http.Error e http.StatusInternalServerError w)
    | None =>
      let w := http.SetHeader "Content-Type" contentType w in
      ret (http.Write reply w)
    end
  end.

Definition replySliderHandler (w : http.ResponseWriter) (body : string)
  : M http.ResponseWriter :=
  match Decode body with
  | inr _ => ret (http.Error "Invalid JSON data" http.StatusBadRequest w)
  | inl rx =>
    fmt_Print (PrintRx rx) ;;
    let name := Name rx in
    let value := Value rx in
    let response := mkResponse "Slider" name "SetFill" value "" "" in
    fmt_Print (PrintResponse response) ;;
    let '(reply, err) := json.Marshal response in
    match err with
    | Some e => ret (http.Error e http.StatusInternalServerError w)
    | None =>
      let w := http.SetHeader "Content-Type" contentType w in
      ret (http.Write reply w)
    end
  end.

End Handlers.

(** The operations of the connection manager, each with what the outside
    answers during it. *)
Inductive Op :=
| OpGetConn (answer : option error)
| OpCloseConn
| OpSend (env : Env) (data_to_send : option string)
| OpTick (now : time.Time) (env : Env).

Definition exec (w : World) (op : Op) : World :=
  match op with
  | OpGetConn answer => snd (getConn answer w)
  | OpCloseConn => snd (closeConn w)
  | OpSend env data => snd (sendToProcessor env data w)
  | OpTick now env => snd (sendTestSetLabel now env w)
  end.

Definition execAll (ops : list Op) (w : World) : World := fold_left exec ops w.

(** What reaches the process once [main] serves. *)
Inductive Event :=
| Tick (now : time.Time) (env : Env)
| Button (body : string)
| Slider (body : string)
| Test.

(** The process: serving (with the ticker goroutine ticking, or stuck on the
    mutex), ended by [main] returning, or killed by a panic outside a
    handler. *)
Inductive Process :=
| Running (ticking : bool) (w : World)
| Exited (w : World)
| Crashed (w : World).

(** [main] up to the point where [http.ListenAndServe] serves or fails:
    [listen] is what it returns at once, if anything. *)
Definition main (listen : option error) (w : World) : Process :=
  let w := add_stdout (Println ["Starting server at"; ServerAddr]) w in
  match listen with
  | Some e => Exited (add_stdout (Println ["Error starting server:"; e]) w)
  | None => Running true w
  end.

Section Serving.
Variable Decode : Decoder.

(** One event delivered to the process: the next process, and the response
    of a request that got one.  [startTicker] calls [sendTestSetLabel] per
    tick; net/http recovers a handler's panic; a panic of the ticker
    goroutine ends the process. *)
Definition deliver (p : Process) (e : Event) : Process * option http.ResponseWriter :=
  match p with
  | Running ticking w =>
    match e with
    | Tick now env =>
      if ticking then
        match sendTestSetLabel now env w with
        | (Return _, w') => (Running true w', None)
        | (Panic _, w') => (Crashed w', None)
        | (Blocked, w') => (Running false w', None)
        end
      else (p, None)
    | Button body =>
      match replyButtonHandler Decode http.newWriter body w with
      | (Return r, w') => (Running ticking w', Some r)
      | (_, w') => (Running ticking w', None)
      end
    | Slider body =>
      match replySliderHandler Decode http.newWriter body w with
      | (Return r, w') => (Running ticking w', Some r)
      | (_, w') => (Running ticking w', None)
      end
    | Test =>
      match replyTestHandler http.newWriter w with
      | (Return r, w') => (Running ticking w', Some r)
      | (_, w') => (Running ticking w', None)
      end
    end
  | _ => (p, None)
  end.

Definition run (p : Process) (es : list Event) : Process :=
  fold_left (fun p e => fst (deliver p e)) es p.

End Serving.

(** *** Goroutines

    [sendToProcessor] holds [connMu] inside [getConn] and inside
    [closeConn] only; between them other goroutines run.  A goroutine is cut
    at these points: each step below is one stretch no other goroutine can
    enter ([getConn] and [closeConn] under the mutex, [req.Write] as one
    call on the socket). *)
Inductive Goroutine :=
| AtGetConn (env : Env) (data_to_send : option string)
| AtWrite (c : option fd) (req : http.Request) (answer : option error)
| AtCloseConn
| Finished
| Dead.

Definition after {A} (r : Outcome A * World) (k : A -> World -> Goroutine * World)
  : Goroutine * World :=
  match r with
  | (Return a, w) => k a w
  | (_, w) => (Dead, w)
  end.

Definition step (g : Goroutine) (w : World) : Goroutine * World :=
  match g with
  | AtGetConn env data_to_send =>
    after (getConn (dial env) w) (fun r w =>
      let '(conn, err) := r in
      match err with
      | Some e => after (fmt_Println ["Error connecting to client:"; e] w)
                        (fun _ w => (Finished, w))
      | None =>
        let '(req, err) := http.NewRequest "POST" "/" data_to_send in
        match err, req with
        | Some e, _ => after (fmt_Println ["Error creating HTTP request:"; e] w)
                             (fun _ w => (Finished, w))
        | None, None => (Dead, w)
        | None, Some req =>
          (AtWrite conn (http.Request_SetHeader "Content-Type" contentType req)
                   (write env), w)
        end
      end)
  | AtWrite c req answer =>
    after (req_Write req c answer w) (fun err w =>
      match err with
      | Some e => after (fmt_Println ["Error sending HTTP request:"; e] w)
                        (fun _ w => (AtCloseConn, w))
      | None => (Finished, w)
      end)
  | AtCloseConn => after (closeConn w) (fun _ w => (Finished, w))
  | Finished => (Finished, w)
  | Dead => (Dead, w)
  end.

(** A scheduler's choice: start a goroutine in [sendToProcessor], or let
    the [i]-th one take its next step. *)
Inductive Choice :=
| Spawn (env : Env) (data_to_send : option string)
| Resume (i : nat).

Fixpoint resume (i : nat) (gs : list Goroutine) (w : World) : list Goroutine * World :=
  match gs, i with
  | [], _ => ([], w)
  | g :: gs', O => let '(g', w') := step g w in (g' :: gs', w')
  | g :: gs', S j => let '(gs'', w') := resume j gs' w in (g :: gs'', w')
  end.

Definition schedule1 (s : list Goroutine * World) (c : Choice) : list Goroutine * World :=
  match c with
  | Spawn env data_to_send => ((fst s ++ [AtGetConn env data_to_send])%list, snd s)
  | Resume i => resume i (fst s) (snd s)
  end.

Definition schedule (cs : list Choice) (s : list Goroutine * World)
  : list Goroutine * World :=
  fold_left schedule1 cs s.

End Part000.

(** ** Reading a clock string back

    The fixed clock format of the label: two digits each of hour, minute
    and second between colons, then nothing or a point and the hundredths.
    [Clock.read] gives the numbers such a string shows. *)
Module Clock.

Definition digitValue (c : ascii) : option N :=
  let n := N_of_ascii c in
  if ((48 <=? n) && (n <=? 57))%N then Some (n - 48)%N else None.

Definition two (a b : ascii) : option N :=
  match digitValue a, digitValue b with
  | Some x, Some y => Some (10 * x + y)%N
  | _, _ => None
  end.

Record Shown := mkShown { hour : N; minute : N; second : N; hundredths : option N }.

Definition read (s : string) : option Shown :=
  match list_ascii_of_string s with
  | [h1; h2; p1; m1; m2; p2; s1; s2] =>
    if Ascii.eqb p1 ":" && Ascii.eqb p2 ":" then
      match two h1 h2, two m1 m2, two s1 s2 with
      | Some h, Some m, Some s => Some (mkShown h m s None)
      | _, _, _ => None
      end
    else None
  | [h1; h2; p1; m1; m2; p2; s1; s2; p3; c1; c2] =>
    if Ascii.eqb p1 ":" && Ascii.eqb p2 ":" && Ascii.eqb p3 "." then
      match two h1 h2, two m1 m2, two s1 s2, two c1 c2 with
      | Some h, Some m, Some s, Some c => Some (mkShown h m s (Some c))
      | _, _, _, _ => None
      end
    else None
  | _ => None
  end.

(** Two instants of one day, the second later. *)
Definition wf (t : time.Time) : Prop := (time.nsec t < 1000000000)%N.
Definition sameDay (t1 t2 : time.Time) : Prop :=
  (time.abs t1 / time.secondsPerDay = time.abs t2 / time.secondsPerDay)%N.
Definition later (t1 t2 : time.Time) : Prop :=
  (time.abs t1 < time.abs t2
   \/ time.abs t1 = time.abs t2 /\ time.nsec t1 < time.nsec t2)%N.

(** The second of the epoch and the hundredth of a second an instant lies in. *)
Definition hundredth (t : time.Time) : N :=
  (time.abs t * 100 + time.nsec t / 10000000)%N.

End Clock.

(** ** The JSON texts of the wire

    The text of an inbound event and of an outbound command whose strings
    need no escape: the members in the order of the struct fields, no
    blanks. *)
Module Wire.

(** [q s] is [s] between double quotes. *)
Definition q (s : string) : string := String json.dquote (s ++ String json.dquote "").

Definition member (k v : string) : string := q k ++ ":" ++ q v.

Definition event (name action value : string) : string :=
  "{" ++ member "name" name ++ "," ++ member "action" action ++ ","
      ++ member "value" value ++ "}".

Definition command (type object function arg1 : string) : string :=
  "{" ++ member "type" type ++ "," ++ member "object" object ++ ","
      ++ member "function" function ++ "," ++ member "arg1" arg1 ++ ","
      ++ member "arg2" "" ++ "," ++ member "arg3" "" ++ "}".

(** The strings the encoder copies as they are. *)
Definition plain (s : string) : bool :=
  forallb json.htmlSafe (list_ascii_of_string s).

End Wire.

(** ** A decoder for the worked examples

    The theorems below hold for every [Decoder].  This one instantiates
    them: it reads one flat JSON object whose members are strings without
    escapes, keeps the members named name, action and value, and, as Go's
    [Decoder] does, leaves what follows the object unread. *)
Module Example.

Inductive state :=
| Start
| Member (first : bool)
| Key (k : string)
| Colon (k : string)
| Val (k : string)
| InVal (k v : string)
| Next
| Done.

Definition isSpace (c : ascii) : bool :=
  existsb (Ascii.eqb c) [" "%char; "009"%char; "010"%char; "013"%char].

Definition plain (c : ascii) : bool :=
  (32 <=? N_of_ascii c)%N && negb (Ascii.eqb c json.backslash).

Definition assign (k v : string) (rx : Rx) : Rx :=
  if String.eqb k "name" then mkRx v (Action rx) (Value rx)
  else if String.eqb k "action" then mkRx (Name rx) v (Value rx)
  else if String.eqb k "value" then mkRx (Name rx) (Action rx) v
  else rx.

Definition snoc (s : string) (c : ascii) : string := s ++ String c "".

Fixpoint scan (st : state) (rx : Rx) (s : string) : Rx + error :=
  match s with
  | EmptyString =>
    match st with
    | Done => inl rx
    | Start => inr "EOF"
    | _ => inr "unexpected EOF"
    end
  | String c rest =>
    let bad : Rx + error := inr ("invalid character " ++ String c "") in
    match st with
    | Done => inl rx
    | Start =>
      if isSpace c then scan Start rx rest
      else if Ascii.eqb c "{" then scan (Member true) rx rest
      else bad
    | Member first =>
      if isSpace c then scan st rx rest
      else if Ascii.eqb c json.dquote then scan (Key "") rx rest
      else if first && Ascii.eqb c "}" then scan Done rx rest
      else bad
    | Key k =>
      if Ascii.eqb c json.dquote then scan (Colon k) rx rest
      else if plain c then scan (Key (snoc k c)) rx rest
      else bad
    | Colon k =>
      if isSpace c then scan st rx rest
      else if Ascii.eqb c ":" then scan (Val k) rx rest
      else bad
    | Val k =>
      if isSpace c then scan st rx rest
      else if Ascii.eqb c json.dquote then scan (InVal k "") rx rest
      else bad
    | InVal k v =>
      if Ascii.eqb c json.dquote then scan Next (assign k v rx) rest
      else if plain c then scan (InVal k (snoc v c)) rx rest
      else bad
    | Next =>
      if isSpace c then scan st rx rest
      else if Ascii.eqb c "," then scan (Member false) rx rest
      else if Ascii.eqb c "}" then scan Done rx rest
      else bad
    end
  end.

Definition Decode : Decoder := scan Start (mkRx "" "" "").

End Example.

(** ** encoding/json, the decoder of a stream

    [json.NewDecoder(r.Body).Decode(&rx)] is Go's library, not code of the
    repository.  It works in two steps: [readValue] finds where the first
    JSON value of the input ends, with the scanner of [scanner.go], and
    [unmarshal] stores that value in the event.  The first step is modelled
    here; the second stays an input, as the [Decoder] of the handlers is. *)
Module scanner.

(** What a step of the scanner reports.  [scanError] carries the context
    of the message the scanner records. *)
Inductive code :=
| scanContinue | scanBeginLiteral | scanBeginObject | scanObjectKey
| scanObjectValue | scanEndObject | scanBeginArray | scanArrayValue
| scanEndArray | scanSkipSpace | scanEnd
| scanError (context : string).

Inductive parse := parseObjectKey | parseObjectValue | parseArrayValue.

(** The step functions, by name. *)
Inductive state :=
| stateBeginValueOrEmpty | stateBeginValue | stateBeginStringOrEmpty
| stateBeginString | stateEndValue | stateEndTop
| stateInString | stateInStringEsc
| stateInStringEscU | stateInStringEscU1 | stateInStringEscU12 | stateInStringEscU123
| stateNeg | state1 | state0 | stateDot | stateDot0 | stateE | stateESign | stateE0
| stateT | stateTr | stateTru
| stateF | stateFa | stateFal | stateFals
| stateN | stateNu | stateNul
| stateError.

(** The scanner.  Go's [err] is set exactly when [step] is [stateError],
    and while it is nil [endTop] holds exactly when [step] is
    [stateEndTop]: the two are read off [step]. *)
Record scanner := mk {
  step : state;
  parseState : list parse   (* the innermost first *)
}.

Definition maxNestingDepth : N := 10000.

Definition reset : scanner := mk stateBeginValue [].

Definition isSpace (c : ascii) : bool :=
  Ascii.eqb c " " || Ascii.eqb c "009" || Ascii.eqb c "013" || Ascii.eqb c "010".

Definition within (lo hi c : ascii) : bool :=
  (N_of_ascii lo <=? N_of_ascii c)%N && (N_of_ascii c <=? N_of_ascii hi)%N.

(** [s.step = st]. *)
Definition to (st : state) (s : scanner) : scanner := mk st (parseState s).

(** [s.error(c, context)]. *)
Definition error_ (s : scanner) (context : string) : code * scanner :=
  (scanError context, to stateError s).

Definition pushParseState (s : scanner) (newParseState : parse) (successState : code)
  : code * scanner :=
  let s' := mk (step s) (newParseState :: parseState s) in
  if (N.of_nat (length (parseState s')) <=? maxNestingDepth)%N
  then (successState, s')
  else error_ s' "exceeded max depth".

(** Go calls it on a stack that is not empty. *)
Definition popParseState (s : scanner) : scanner :=
  match parseState s with
  | _ :: [] => mk stateEndTop []
  | _ :: rest => mk stateEndValue rest
  | [] => s
  end.

(** The step functions: the name of Go's function, with an underscore. *)
Definition stateEndTop_ (s : scanner) (c : ascii) : code * scanner :=
  if isSpace c then (scanEnd, s) else (scanEnd, to stateError s).

Definition stateEndValue_ (s : scanner) (c : ascii) : code * scanner :=
  match parseState s with
  | [] => stateEndTop_ (to stateEndTop s) c
  | ps :: rest =>
    if isSpace c then (scanSkipSpace, to stateEndValue s)
    else
      match ps with
      | parseObjectKey =>
        if Ascii.eqb c ":"
        then (scanObjectKey, mk stateBeginValue (parseObjectValue :: rest))
        else error_ s "after object key"
      | parseObjectValue =>
        if Ascii.eqb c ","
        then (scanObjectValue, mk stateBeginString (parseObjectKey :: rest))
        else if Ascii.eqb c "}" then (scanEndObject, popParseState s)
        else error_ s "after object key:value pair"
      | parseArrayValue =>
        if Ascii.eqb c "," then (scanArrayValue, to stateBeginValue s)
        else if Ascii.eqb c "]" then (scanEndArray, popParseState s)
        else error_ s "after array element"
      end
  end.

Definition stateBeginValue_ (s : scanner) (c : ascii) : code * scanner :=
  if isSpace c then (scanSkipSpace, s)
  else if Ascii.eqb c "{" then
    pushParseState (to stateBeginStringOrEmpty s) parseObjectKey scanBeginObject
  else if Ascii.eqb c "[" then
    pushParseState (to stateBeginValueOrEmpty s) parseArrayValue scanBeginArray
  else if Ascii.eqb c json.dquote then (scanBeginLiteral, to stateInString s)
  else if Ascii.eqb c "-" then (scanBeginLiteral, to stateNeg s)
  else if Ascii.eqb c "0" then (scanBeginLiteral, to state0 s)
  else if Ascii.eqb c "t" then (scanBeginLiteral, to stateT s)
  else if Ascii.eqb c "f" then (scanBeginLiteral, to stateF s)
  else if Ascii.eqb c "n" then (scanBeginLiteral, to stateN s)
  else if within "1" "9" c then (scanBeginLiteral, to state1 s)
  else error_ s "looking for beginning of value".

Definition stateBeginValueOrEmpty_ (s : scanner) (c : ascii) : code * scanner :=
  if isSpace c then (scanSkipSpace, s)
  else if Ascii.eqb c "]" then stateEndValue_ s c
  else stateBeginValue_ s c.

Definition stateBeginString_ (s : scanner) (c : ascii) : code * scanner :=
  if isSpace c then (scanSkipSpace, s)
  else if Ascii.eqb c json.dquote then (scanBeginLiteral, to stateInString s)
  else error_ s "looking for beginning of object key string".

(** On the closing brace Go overwrites the innermost entry, which is there. *)
Definition stateBeginStringOrEmpty_ (s : scanner) (c : ascii) : code * scanner :=
  if isSpace c then (scanSkipSpace, s)
  else if Ascii.eqb c "}" then
    stateEndValue_ (mk (step s) (parseObjectValue :: tl (parseState s))) c
  else stateBeginString_ s c.

Definition stateInString_ (s : scanner) (c : ascii) : code * scanner :=
  if Ascii.eqb c json.dquote then (scanContinue, to stateEndValue s)
  else if Ascii.eqb c json.backslash then (scanContinue, to stateInStringEsc s)
  else if (N_of_ascii c <? 32)%N then error_ s "in string literal"
  else (scanContinue, s).

Definition stateInStringEsc_ (s : scanner) (c : ascii) : code * scanner :=
  if existsb (Ascii.eqb c)
       ["b"; "f"; "n"; "r"; "t"; json.backslash; "/"; json.dquote]%char
  then (scanContinue, to stateInString s)
  else if Ascii.eqb c "u" then (scanContinue, to stateInStringEscU s)
  else error_ s "in string escape code".

Definition hexDigit (c : ascii) : bool :=
  within "0" "9" c || within "a" "f" c || within "A" "F" c.

(** [stateInStringEscU], [...U1], [...U12], [...U123]: one hexadecimal
    digit, then [then_]. *)
Definition escU (then_ : state) (s : scanner) (c : ascii) : code * scanner :=
  if hexDigit c then (scanContinue, to then_ s)
  else error_ s "in \u hexadecimal character escape".

Definition stateNeg_ (s : scanner) (c : ascii) : code * scanner :=
  if Ascii.eqb c "0" then (scanContinue, to state0 s)
  else if within "1" "9" c then (scanContinue, to state1 s)
  else error_ s "in numeric literal".

Definition state0_ (s : scanner) (c : ascii) : code * scanner :=
  if Ascii.eqb c "." then (scanContinue, to stateDot s)
  else if Ascii.eqb c "e" || Ascii.eqb c "E" then (scanContinue, to stateE s)
  else stateEndValue_ s c.

Definition state1_ (s : scanner) (c : ascii) : code * scanner :=
  if within "0" "9" c then (scanContinue, to state1 s)
  else state0_ s c.

Definition stateDot_ (s : scanner) (c : ascii) : code * scanner :=
  if within "0" "9" c then (scanContinue, to stateDot0 s)
  else error_ s "after decimal point in numeric literal".

Definition stateDot0_ (s : scanner) (c : ascii) : code * scanner :=
  if within "0" "9" c then (scanContinue, s)
  else if Ascii.eqb c "e" || Ascii.eqb c "E" then (scanContinue, to stateE s)
  else stateEndValue_ s c.

Definition stateESign_ (s : scanner) (c : ascii) : code * scanner :=
  if within "0" "9" c then (scanContinue, to stateE0 s)
  else error_ s "in exponent of numeric literal".

Definition stateE_ (s : scanner) (c : ascii) : code * scanner :=
  if Ascii.eqb c "+" || Ascii.eqb c "-" then (scanContinue, to stateESign s)
  else stateESign_ s c.

Definition stateE0_ (s : scanner) (c : ascii) : code * scanner :=
  if within "0" "9" c then (scanContinue, s)
  else stateEndValue_ s c.

(** [stateT] to [stateNul]: the next letter of true, false or null. *)
Definition literal (expect : ascii) (then_ : state) (context : string)
  (s : scanner) (c : ascii) : code * scanner :=
  if Ascii.eqb c expect then (scanContinue, to then_ s)
  else error_ s context.

(** [s.step(s, c)]. *)
Definition call (s : scanner) (c : ascii) : code * scanner :=
  match step s with
  | stateBeginValueOrEmpty => stateBeginValueOrEmpty_ s c
  | stateBeginValue => stateBeginValue_ s c
  | stateBeginStringOrEmpty => stateBeginStringOrEmpty_ s c
  | stateBeginString => stateBeginString_ s c
  | stateEndValue => stateEndValue_ s c
  | stateEndTop => stateEndTop_ s c
  | stateInString => stateInString_ s c
  | stateInStringEsc => stateInStringEsc_ s c
  | stateInStringEscU => escU stateInStringEscU1 s c
  | stateInStringEscU1 => escU stateInStringEscU12 s c
  | stateInStringEscU12 => escU stateInStringEscU123 s c
  | stateInStringEscU123 => escU stateInString s c
  | stateNeg => stateNeg_ s c
  | state1 => state1_ s c
  | state0 => state0_ s c
  | stateDot => stateDot_ s c
  | stateDot0 => stateDot0_ s c
  | stateE => stateE_ s c
  | stateESign => stateESign_ s c
  | stateE0 => stateE0_ s c
  | stateT => literal "r" stateTr "in literal true (expecting 'r')" s c
  | stateTr => literal "u" stateTru "in literal true (expecting 'u')" s c
  | stateTru => literal "e" stateEndValue "in literal true (expecting 'e')" s c
  | stateF => literal "a" stateFa "in literal false (expecting 'a')" s c
  | stateFa => literal "l" stateFal "in literal false (expecting 'l')" s c
  | stateFal => literal "s" stateFals "in literal false (expecting 's')" s c
  | stateFals => literal "e" stateEndValue "in literal false (expecting 'e')" s c
  | stateN => literal "u" stateNu "in literal null (expecting 'u')" s c
  | stateNu => literal "l" stateNul "in literal null (expecting 'l')" s c
  | stateNul => literal "l" stateEndValue "in literal null (expecting 'l')" s c
  | stateError => (scanError "", s)
  end.

(** [s.eof()]: the input has ended; [scanEnd] if a value is complete. *)
Definition eof (s : scanner) : code :=
  match step s with
  | stateError => scanError ""
  | stateEndTop => scanEnd
  | _ =>
    match step (snd (call s " ")) with
    | stateEndTop => scanEnd
    | _ => scanError "unexpected end of JSON input"
    end
  end.

(** [checkValid] from the scanner [s] on: every byte is stepped over, and
    the input ends where a value is complete. *)
Fixpoint checkValid (s : scanner) (data : string) : bool :=
  match data with
  | EmptyString => match eof s with scanError _ => false | _ => true end
  | String c rest =>
    match call s c with
    | (scanError _, _) => false
    | (_, s') => checkValid s' rest
    end
  end.

(** [json.Valid]: [data] is one JSON value, blanks around it allowed: a
    well-formed JSON text. *)
Definition Valid (data : string) : bool := checkValid reset data.

End scanner.

(** [stream.go]: the decoder of a reader, on a body that arrives whole. *)
Module stream.
Import scanner.

(** What the search for the end of the first value gives: the bytes of the
    value (the blanks before it included), and whether the search stopped
    at a byte of the input, not at its end; or the scanner's error; or,
    with [None], the end of the input inside the value or before it. *)
Inductive result :=
| Found (v : string) (inside : bool)
| Failed (e : option error).

Definition push (c : ascii) (r : result) : result :=
  match r with
  | Found v inside => Found (String c v) inside
  | Failed e => r
  end.

(** The loop of [readValue] over the bytes of the buffer.  It stops at the
    closing brace or bracket of the outermost value, or at the first byte
    after a top-level string, number or literal, and what follows is not
    looked at.  The message of a syntax error names the byte as it is (Go
    escapes an unprintable one). *)
Fixpoint scan (s : scanner) (buf : string) : result :=
  match buf with
  | EmptyString =>
    match fst (call s " ") with
    | scanEnd => Found "" false
    | _ => Failed None
    end
  | String c rest =>
    match call s c with
    | (scanEnd, _) => Found "" true
    | (scanEndObject, s') | (scanEndArray, s') =>
      match fst (stateEndValue_ s' " ") with
      | scanEnd => Found (String c "") true
      | _ => push c (scan s' rest)
      end
    | (scanError context, _) =>
      Failed (Some ("invalid character '" ++ String c "' " ++ context))
    | (_, s') => push c (scan s' rest)
    end
  end.

Definition nonSpace (b : string) : bool :=
  existsb (fun c => negb (isSpace c)) (list_ascii_of_string b).

(** [dec.readValue()]: the first value of the body, or the error
    ([io.EOF] on a body of blanks, [io.ErrUnexpectedEOF] on a value cut
    short). *)
Definition readValue (buf : string) : string + error :=
  match scan reset buf with
  | Found v _ => inl v
  | Failed (Some e) => inr e
  | Failed None => inr (if nonSpace buf then "unexpected EOF" else "EOF")
  end.

Section Decoder.

(** [dec.d.unmarshal(&rx)] on the bytes of the value read. *)
Variable unmarshal : string -> Rx + error.

(** [dec.Decode(&rx)] of a new decoder. *)
Definition Decode : Decoder := fun body =>
  match readValue body with
  | inl v => unmarshal v
  | inr e => inr e
  end.

End Decoder.

End stream.

(** ** Vocabulary of the properties *)

(** The connection manager at rest, between two of its operations: the
    mutex is free, and the sockets open are the shared connection and
    nothing else. *)
Definition AtRest (w : World) : Prop :=
  connMu w = false
  /\ open w = match conn w with Some c => [c] | None => [] end.

(** At rest, and the shared connection is a socket a dial has returned:
    the next dial returns another one. *)
Definition Inv (w : World) : Prop :=
  connMu w = false
  /\ open w = match conn w with Some c => [c] | None => [] end
  /\ match conn w with Some c => c < next w | None => True end.

(** Either no connection exists, or exactly one, the shared one. *)
Definition OneConnection (w : World) : Prop :=
  (conn w = None /\ open w = []) \/ (exists c, conn w = Some c /\ open w = [c]).

(** The frame [sendToProcessor] and [sendTestSetLabel] write: a POST to "/"
    with the JSON content type and the command as body. *)
Definition postRequest (data : option string) : http.Request :=
  http.mkRequest "POST" "/" [("Content-Type", "application/json")]
                 match data with Some s => s | None => "" end.

(** The answers of a handler: the JSON reply, and the refusal of a body. *)
Definition jsonReply (b : string) : http.ResponseWriter :=
  http.mkWriter [("Content-Type", "application/json")] (Some 200) b.

Definition invalidJSON : http.ResponseWriter :=
  http.mkWriter [("X-Content-Type-Options", "nosniff");
                 ("Content-Type", "text/plain; charset=utf-8")]
                (Some 400) ("Invalid JSON data" ++ http.newline).

(** What the toggle of a button event is to be, for a function [f] with the
    exclusion list [excluded]: nothing for an excluded name; otherwise the
    marshalled Button/SetState command on the event's name, with state 1
    for the value 0 and state 0 for every other value; and when the name
    needs no escape, the bytes are the JSON text with the name as it is. *)
Definition Toggles (excluded : list string)
  (f : Rx -> M (option string * option error)) : Prop :=
  forall rx w,
    (In (Name rx) excluded -> f rx w = (Return (None, None), w))
    /\ (~ In (Name rx) excluded ->
        exists cmd b,
          f rx w = (Return (Some b, None), add_stdout (PrintResponse cmd) w)
          /\ json.Marshal cmd = (Some b, None)
          /\ Type_ cmd = "Button" /\ Function_ cmd = "SetState"
          /\ Object cmd = Name rx
          /\ (Value rx = "0" -> Arg1 cmd = "1")
          /\ (Value rx <> "0" -> Arg1 cmd = "0")
          /\ Arg2 cmd = "" /\ Arg3 cmd = ""
          /\ (Wire.plain (Name rx) = true ->
              b = Wire.command "Button" (Name rx) "SetState" (Arg1 cmd))).

(** *** The two-state machine of the connection manager

    Disconnected is [conn = None], Connected is [conn = Some c].  The
    functions below say what each operation is to turn the world into; the
    lemmas [getConn_spec], [closeConn_spec] and [send_spec] show that the
    code does exactly that from every state at rest. *)

Definition noConnection : LogEvent :=
  Println ["No existing connection.  Attempting to establish."].

(** Disconnected, and the dial connects. *)
Definition dialled (w : World) : World :=
  mkWorld (Some (next w)) None false [next w] (S (next w)) (S (dials w)) (wire w)
          (PrintlnConnected (next w) :: noConnection :: stdout w).

(** Disconnected, and the dial is refused with [e]. *)
Definition refused (e : error) (w : World) : World :=
  mkWorld None (Some e) false [] (next w) (S (dials w)) (wire w)
          (noConnection :: stdout w).

(** Connected, and the connection is closed and forgotten. *)
Definition invalidated (w : World) : World :=
  mkWorld None (connErr w) false [] (next w) (dials w) (wire w) (stdout w).

(** AcquireConnection. *)
Definition acquired (answer : option error) (w : World) : World :=
  match conn w, answer with
  | Some _, _ => w
  | None, None => dialled w
  | None, Some e => refused e w
  end.

(** Close. *)
Definition closed (w : World) : World :=
  match conn w with
  | Some _ => invalidated w
  | None => w
  end.

(** One write of [data] on [c] that ends with [r]. *)
Definition written (c : fd) (data : option string) (r : option error) (w : World)
  : World :=
  let w := add_wire (mkWritten c (postRequest data) r) w in
  match r with
  | None => w
  | Some e => invalidated (add_stdout (Println ["Error sending HTTP request:"; e]) w)
  end.

(** Send. *)
Definition afterSend (env : Env) (data : option string) (w : World) : World :=
  let w1 := acquired (dial env) w in
  match conn w1, dial env with
  | Some c, _ => written c data (write env) w1
  | None, Some e => add_stdout (Println ["Error connecting to client:"; e]) w1
  | None, None => w1
  end.

(** What one tick of server.go does on its connection [c]: one write, and
    a line on stdout if it fails. *)
Definition serverTick (c : fd) (data : option string) (answer : option error)
  (w : World) : World :=
  let r := if existsb (Nat.eqb c) (open w) then answer else Some errClosed in
  let w := add_wire (mkWritten c (postRequest data) r) w in
  match r with
  | None => w
  | Some e => add_stdout (Println ["Error sending HTTP request:"; e]) w
  end.

(** *** Vocabulary of the further properties *)

(** The JSON text of the label command that shows [clock]. *)
Definition labelText (clock : string) : string :=
  Wire.command "Label" "Lbl_Time" "SetText" clock.

(** The ticks among the events of server.go, in order. *)
Fixpoint ticksOf (es : list ServerGo.Event) : list (time.Time * option error) :=
  match es with
  | [] => []
  | ServerGo.Tick now answer :: es' => (now, answer) :: ticksOf es'
  | _ :: es' => ticksOf es'
  end.

(** The stretches a goroutine of [sendToProcessor] has at most left. *)
Definition stretchesLeft (g : Part000.Goroutine) : nat :=
  match g with
  | Part000.AtGetConn _ _ => 3
  | Part000.AtWrite _ _ _ => 2
  | Part000.AtCloseConn => 1
  | Part000.Finished => 0
  | Part000.Dead => 0
  end.

(** A goroutine that has not panicked or blocked, and that holds a
    connection if it is about to write. *)
Definition Alive (g : Part000.Goroutine) : Prop :=
  match g with
  | Part000.Dead => False
  | Part000.AtWrite None _ _ => False
  | _ => True
  end.

(** A tick during which the dial, if made, connects and the write succeeds. *)
Definition healthy (env : Env) : Prop := dial env = None /\ write env = None.

(** One write of the label that shows [clock], on [c], that ended with [r]. *)
Definition labelFrame (c : fd) (clock : string) (r : option error) : Written :=
  mkWritten c (postRequest (Some (labelText clock))) r.

(** The stretches the goroutines of a pool have at most left, together. *)
Fixpoint workLeft (gs : list Part000.Goroutine) : nat :=
  match gs with
  | [] => 0
  | g :: gs' => stretchesLeft g + workLeft gs'
  end.

(** Opens a world into its fields. *)
Ltac world w :=
  destruct w as [conn0 connErr0 connMu0 open0 next0 dials0 wire0 stdout0];
  unfold Inv, AtRest in *; cbn [conn connErr connMu open next dials wire stdout] in *.

(** The beginnings of a text, the empty one and the text itself included. *)
Fixpoint prefixes (s : string) : list string :=
  "" :: match s with
        | EmptyString => []
        | String c rest => map (String c) (prefixes rest)
        end.

(** No beginning of the body is a well-formed JSON text: the body does not
    start with a complete JSON value. *)
Definition noValueAtStart (body : string) : bool :=
  forallb (fun v => negb (scanner.Valid v)) (prefixes body).

(** What holds of every scanner [reset] leads to: an array has been opened
    when its first value, or its end, is awaited. *)
Definition sound (s : scanner.scanner) : Prop :=
  scanner.step s = scanner.stateBeginValueOrEmpty -> scanner.parseState s <> [].

(** Splits a goal on the tests of the byte it branches on. *)
Ltac tests :=
  repeat match goal with
  | |- context [if ?b then _ else _] => destruct b eqn:?
  end.

(** Opens a step of the scanner into the step function of its state. *)
Ltac states :=
  unfold scanner.call, scanner.eof; cbn [scanner.step];
  unfold scanner.stateBeginValueOrEmpty_, scanner.stateBeginValue_,
    scanner.stateBeginStringOrEmpty_, scanner.stateBeginString_,
    scanner.stateInString_, scanner.stateInStringEsc_, scanner.escU,
    scanner.stateNeg_, scanner.state1_, scanner.state0_, scanner.stateDot_,
    scanner.stateDot0_, scanner.stateE_, scanner.stateESign_, scanner.stateE0_,
    scanner.literal, scanner.stateEndValue_, scanner.stateEndTop_,
    scanner.pushParseState, scanner.popParseState, scanner.error_, scanner.to;
  cbn [scanner.parseState scanner.step fst snd tl].

(** * Properties *)

(** ** The encoder *)

Lemma Marshal_ok (r : Response) :
  exists b, json.Marshal r = (Some b, None).
Proof.
  unfold json.Marshal, json.reflect. cbn [json.encode].
  eexists. reflexivity.
Qed.

Lemma Marshal_bytes (r : Response) :
  json.Marshal r
  = (Some ("{" ++ json.appendString "type" ++ ":" ++ json.appendString (Type_ r)
           ++ "," ++ json.appendString "object" ++ ":" ++ json.appendString (Object r)
           ++ "," ++ json.appendString "function" ++ ":" ++ json.appendString (Function_ r)
           ++ "," ++ json.appendString "arg1" ++ ":" ++ json.appendString (Arg1 r)
           ++ "," ++ json.appendString "arg2" ++ ":" ++ json.appendString (Arg2 r)
           ++ "," ++ json.appendString "arg3" ++ ":" ++ json.appendString (Arg3 r)
           ++ "}"), None).
Proof. reflexivity. Qed.

Lemma htmlSafe_ascii b : json.htmlSafe b = true -> (N_of_ascii b <? 128)%N = true.
Proof.
  unfold json.htmlSafe. intros H.
  do 5 (apply andb_prop in H; destruct H as (H & _)).
  apply andb_prop in H. exact (proj2 H).
Qed.

Lemma escape_plain s : Wire.plain s = true -> json.escape json.Scan s = s.
Proof.
  unfold Wire.plain. induction s as [| b s IH]; [reflexivity |].
  cbn [list_ascii_of_string forallb json.escape]. intros H.
  apply andb_prop in H. destruct H as (Hb & Hs).
  rewrite (htmlSafe_ascii b Hb), Hb. cbn [append]. rewrite (IH Hs). reflexivity.
Qed.

Lemma appendString_plain s : Wire.plain s = true -> json.appendString s = Wire.q s.
Proof.
  intros H. unfold json.appendString, Wire.q. rewrite (escape_plain s H). reflexivity.
Qed.

(** A command whose strings need no escape is marshalled to its JSON text. *)
Lemma Marshal_plain type object function arg1 :
  Wire.plain type = true -> Wire.plain object = true ->
  Wire.plain function = true -> Wire.plain arg1 = true ->
  json.Marshal (mkResponse type object function arg1 "" "")
  = (Some (Wire.command type object function arg1), None).
Proof.
  intros H1 H2 H3 H4. rewrite Marshal_bytes. cbn [Type_ Object Function_ Arg1 Arg2 Arg3].
  rewrite (appendString_plain type H1), (appendString_plain object H2),
    (appendString_plain function H3), (appendString_plain arg1 H4).
  reflexivity.
Qed.

(** The encoder is partial: a value that holds a channel is refused. *)
Example encode_refuses_chan :
  json.encode (json.Struct_ [("a", json.String_ "x"); ("c", json.Chan_)])
  = inr "json: unsupported type: chan".
Proof. reflexivity. Qed.

Example marshal_button :
  json.Marshal (mkResponse "Button" "Btn_1" "SetState" "1" "" "")
  = (Some (Wire.command "Button" "Btn_1" "SetState" "1"), None).
Proof. reflexivity. Qed.

Example decode_button :
  Example.Decode (Wire.event "Btn_1" "press" "0") = inl (mkRx "Btn_1" "press" "0").
Proof. reflexivity. Qed.

Example format_example :
  time.Format time.layout_15_04_05_00 (time.mkTime 86399 999999999) = "23:59:59.99"
  /\ time.Format time.layout_15_04_05 (time.mkTime 3661 5) = "01:01:01".
Proof. split; reflexivity. Qed.

(** ** The codec and the handlers *)

Lemma slices_Contains_In (l : list string) (x : string) :
  slices_Contains l x = true <-> In x l.
Proof.
  unfold slices_Contains. rewrite existsb_exists. split.
  - intros (y & Hy & E). apply String.eqb_eq in E. subst. assumption.
  - intros H. exists x. split; [assumption | apply String.eqb_refl].
Qed.

Lemma toggle_excluded (rx : Rx) (w : World) :
  In (Name rx) Part000.dontToggleButtons ->
  Part000.btnVisStateToggle rx w = (Return (None, None), w).
Proof.
  intros H. apply slices_Contains_In in H.
  unfold Part000.btnVisStateToggle. rewrite H. reflexivity.
Qed.

Lemma toggle_command (rx : Rx) (w : World) :
  ~ In (Name rx) Part000.dontToggleButtons ->
  let cmd := mkResponse "Button" (Name rx) "SetState"
                        (if String.eqb (Value rx) "0" then "1" else "0") "" "" in
  Part000.btnVisStateToggle rx w
  = (Return (json.Marshal cmd), add_stdout (PrintResponse cmd) w).
Proof.
  intros H. unfold Part000.btnVisStateToggle.
  destruct (slices_Contains Part000.dontToggleButtons (Name rx)) eqn:E.
  - apply slices_Contains_In in E. contradiction.
  - reflexivity.
Qed.

Lemma toggles_part000 : Toggles Part000.dontToggleButtons Part000.btnVisStateToggle.
Proof.
  intros rx w. split.
  - apply toggle_excluded.
  - intros H. rewrite (toggle_command rx w H).
    set (cmd := mkResponse "Button" (Name rx) "SetState"
                  (if String.eqb (Value rx) "0" then "1" else "0") "" "").
    destruct (Marshal_ok cmd) as (b & Eb).
    exists cmd, b. rewrite Eb.
    split; [reflexivity |]. split; [reflexivity |].
    cbn [Type_ Function_ Object Arg1 Arg2 Arg3 cmd].
    repeat split.
    + intros ->. reflexivity.
    + intros Hv. destruct (String.eqb_spec (Value rx) "0"); [contradiction | reflexivity].
    + intros Hp. unfold cmd in Eb. rewrite Marshal_plain in Eb.
      * congruence.
      * reflexivity.
      * exact Hp.
      * reflexivity.
      * destruct (String.eqb (Value rx) "0"); reflexivity.
Qed.

(** C3. For every button event, in both programs: an excluded name gets no
    command and no error (and nothing else happens); every other name gets
    the marshalled Button/SetState command whose object is the event's name
    and whose arg1 is 1 when the event's value is 0 and 0 for every other
    value, the empty (absent) value included. *)
Theorem toggle_response :
  Toggles ServerGo.dontToggleButtons ServerGo.btnVisStateToggle
  /\ Toggles Part000.dontToggleButtons Part000.btnVisStateToggle
  /\ (forall name action, ~ In name Part000.dontToggleButtons ->
        exists b w', Part000.btnVisStateToggle (mkRx name action "") initial
                     = (Return (Some b, None), w')
                     /\ json.Marshal (mkResponse "Button" name "SetState" "0" "" "")
                        = (Some b, None)).
Proof.
  split; [exact toggles_part000 |]. split; [exact toggles_part000 |].
  intros name action H.
  rewrite (toggle_command (mkRx name action "") initial H). cbn [Name Value].
  destruct (Marshal_ok (mkResponse "Button" name "SetState" "0" "" "")) as (b & Eb).
  exists b. eexists. cbn [String.eqb]. rewrite Eb. split; reflexivity.
Qed.

Lemma slider_part000 (Decode : Decoder) (body : string) (rx : Rx) (w : World) :
  Decode body = inl rx ->
  let cmd := mkResponse "Slider" (Name rx) "SetFill" (Value rx) "" "" in
  exists b,
    json.Marshal cmd = (Some b, None)
    /\ Part000.replySliderHandler Decode http.newWriter body w
       = (Return (jsonReply b), add_stdout (PrintResponse cmd) (add_stdout (PrintRx rx) w)).
Proof.
  intros H cmd. destruct (Marshal_ok cmd) as (b & Eb). exists b.
  split; [exact Eb |].
  unfold Part000.replySliderHandler. rewrite H.
  fold cmd. unfold bind, fmt_Print, modify. rewrite Eb. reflexivity.
Qed.

(** C5. For every slider event (a body the decoder accepts as [rx]), both
    slider handlers answer 200 with the marshalled Slider/SetFill command
    whose object is the event's name and whose arg1 is the event's value,
    each exactly as received, with no check on the value; when name and
    value need no escape the body is the JSON text with both as they are. *)
Theorem slider_response (Decode : Decoder) (body : string) (rx : Rx) (w : World) :
  Decode body = inl rx ->
  exists cmd b,
    json.Marshal cmd = (Some b, None)
    /\ Type_ cmd = "Slider" /\ Function_ cmd = "SetFill"
    /\ Object cmd = Name rx /\ Arg1 cmd = Value rx
    /\ Arg2 cmd = "" /\ Arg3 cmd = ""
    /\ Part000.replySliderHandler Decode http.newWriter body w
       = (Return (jsonReply b), add_stdout (PrintResponse cmd) (add_stdout (PrintRx rx) w))
    /\ ServerGo.replySliderHandler Decode http.newWriter body w
       = (Return (jsonReply b), add_stdout (PrintResponse cmd) (add_stdout (PrintRx rx) w))
    /\ (Wire.plain (Name rx) = true -> Wire.plain (Value rx) = true ->
        b = Wire.command "Slider" (Name rx) "SetFill" (Value rx)).
Proof.
  intros H. destruct (slider_part000 Decode body rx w H) as (b & Eb & Eh).
  exists (mkResponse "Slider" (Name rx) "SetFill" (Value rx) "" ""), b.
  repeat split; try reflexivity; try assumption.
  intros Hn Hv. rewrite Marshal_plain in Eb by (reflexivity || assumption).
  congruence.
Qed.

Lemma slider_response_witness :
  exists cmd b,
    json.Marshal cmd = (Some b, None)
    /\ Type_ cmd = "Slider" /\ Function_ cmd = "SetFill"
    /\ Object cmd = "Sld_1" /\ Arg1 cmd = "42"
    /\ Arg2 cmd = "" /\ Arg3 cmd = ""
    /\ Part000.replySliderHandler Example.Decode http.newWriter
         (Wire.event "Sld_1" "change" "42") initial
       = (Return (jsonReply b),
          add_stdout (PrintResponse cmd)
            (add_stdout (PrintRx (mkRx "Sld_1" "change" "42")) initial))
    /\ ServerGo.replySliderHandler Example.Decode http.newWriter
         (Wire.event "Sld_1" "change" "42") initial
       = (Return (jsonReply b),
          add_stdout (PrintResponse cmd)
            (add_stdout (PrintRx (mkRx "Sld_1" "change" "42")) initial))
    /\ (Wire.plain "Sld_1" = true -> Wire.plain "42" = true ->
        b = Wire.command "Slider" "Sld_1" "SetFill" "42").
Proof.
  apply (slider_response Example.Decode (Wire.event "Sld_1" "change" "42")
           (mkRx "Sld_1" "change" "42") initial).
  reflexivity.
Defined.

(** *** The decoder of the handlers *)

(** A body the decoder refuses gets, from the button and the slider handler
    of both programs, the 400 answer of [http.Error], and the world is left
    exactly as it was. *)
Lemma refused_body_gets_400
  (Decode : Decoder) (body : string) (e : error) (w : World) :
  Decode body = inr e ->
  http.status invalidJSON = Some http.StatusBadRequest
  /\ Part000.replyButtonHandler Decode http.newWriter body w = (Return invalidJSON, w)
  /\ Part000.replySliderHandler Decode http.newWriter body w = (Return invalidJSON, w)
  /\ ServerGo.replyButtonHandler Decode http.newWriter body w = (Return invalidJSON, w)
  /\ ServerGo.replySliderHandler Decode http.newWriter body w = (Return invalidJSON, w).
Proof.
  intros H.
  unfold Part000.replyButtonHandler, Part000.replySliderHandler,
    ServerGo.replyButtonHandler, ServerGo.replySliderHandler.
  rewrite H. repeat split.
Qed.

Lemma sound_reset : sound scanner.reset.
Proof. intros H. discriminate H. Qed.

Lemma sound_call (s : scanner.scanner) (c : ascii) :
  sound s -> sound (snd (scanner.call s c)).
Proof.
  destruct s as [st stk]. unfold sound. cbn [scanner.step scanner.parseState]. intros S.
  destruct st; states;
    try (destruct stk as [|[] [|? stk]]); tests;
    cbn [scanner.parseState scanner.step fst snd tl];
    intros H; try discriminate H; try (intros K; discriminate K);
    try (apply S; reflexivity).
Qed.

(** Where a step reports the end of the value, the input may end. *)
Lemma end_is_eof (s : scanner.scanner) (c : ascii) :
  sound s -> fst (scanner.call s c) = scanner.scanEnd -> scanner.eof s = scanner.scanEnd.
Proof.
  destruct s as [st stk]. unfold sound. cbn [scanner.step scanner.parseState]. intros S.
  destruct st; states; try reflexivity.
  all: try (destruct stk as [|[] stk]); tests; cbn;
    intros H; try discriminate H; try reflexivity;
    exfalso; apply S; reflexivity.
Qed.

Lemma closed_step (s : scanner.scanner) (c : ascii) :
  fst (scanner.call s c) = scanner.scanEndObject
  \/ fst (scanner.call s c) = scanner.scanEndArray ->
  scanner.parseState (snd (scanner.call s c)) = [] ->
  scanner.step (snd (scanner.call s c)) = scanner.stateEndTop.
Proof.
  destruct s as [st stk].
  destruct st; states.
  all: try (destruct stk as [|[] [|? stk]]); tests;
    cbn [scanner.parseState scanner.step fst snd tl];
    intros [H | H]; try discriminate H; try reflexivity;
    intros K; discriminate K.
Qed.

(** After the brace or bracket that closes the outermost value, the input
    may end. *)
Lemma closed_is_eof (s : scanner.scanner) (c : ascii) :
  fst (scanner.call s c) = scanner.scanEndObject
  \/ fst (scanner.call s c) = scanner.scanEndArray ->
  fst (scanner.stateEndValue_ (snd (scanner.call s c)) " ") = scanner.scanEnd ->
  scanner.eof (snd (scanner.call s c)) = scanner.scanEnd.
Proof.
  intros H K. pose proof (closed_step s c H) as T.
  destruct (snd (scanner.call s c)) as [st' stk'].
  cbn [scanner.parseState scanner.step] in T.
  destruct stk' as [|ps stk'].
  - rewrite (T eq_refl). reflexivity.
  - destruct ps; discriminate K.
Qed.

(** The value [readValue] finds is a beginning of the input, and a
    well-formed JSON text. *)
Lemma scan_valid (buf : string) :
  forall (s : scanner.scanner) (v : string) (inside : bool),
  sound s ->
  stream.scan s buf = stream.Found v inside ->
  (exists rest, buf = v ++ rest) /\ scanner.checkValid s v = true.
Proof.
  induction buf as [|c buf IH]; intros s v inside S H.
  - cbn in H. destruct (fst (scanner.call s " ")) eqn:E; try discriminate H.
    injection H as <- <-. split; [exists ""; reflexivity|].
    cbn. rewrite (end_is_eof s " " S E). reflexivity.
  - cbn in H.
    assert (step_case : forall s', snd (scanner.call s c) = s' ->
              (forall ctx, fst (scanner.call s c) <> scanner.scanError ctx) ->
              stream.push c (stream.scan s' buf) = stream.Found v inside ->
              (exists rest, String c buf = v ++ rest)
              /\ scanner.checkValid s v = true).
    { intros s' Es Ne Hp.
      destruct (stream.scan s' buf) as [v' i'|] eqn:Ev; cbn in Hp; [|discriminate Hp].
      injection Hp as <- <-.
      destruct (IH s' v' i') as ((rest & ->) & V);
        [subst s'; apply sound_call, S|exact Ev|].
      split; [exists rest; reflexivity|].
      cbn. destruct (scanner.call s c) as [k s0]. cbn in Es, Ne. subst s0.
      destruct k; try exact V. exfalso. eapply Ne. reflexivity. }
    destruct (scanner.call s c) as [k s'] eqn:E.
    destruct k;
      try (apply (step_case s' eq_refl); [intros ctx; cbn; discriminate|exact H]).
    + destruct (fst (scanner.stateEndValue_ s' " ")) eqn:K;
        try (apply (step_case s' eq_refl); [intros ctx; cbn; discriminate|exact H]).
      injection H as <- <-. split; [exists buf; reflexivity|].
      cbn. rewrite E.
      pose proof (closed_is_eof s c) as C. rewrite E in C. cbn [fst snd] in C.
      rewrite (C (or_introl eq_refl) K). reflexivity.
    + destruct (fst (scanner.stateEndValue_ s' " ")) eqn:K;
        try (apply (step_case s' eq_refl); [intros ctx; cbn; discriminate|exact H]).
      injection H as <- <-. split; [exists buf; reflexivity|].
      cbn. rewrite E.
      pose proof (closed_is_eof s c) as C. rewrite E in C. cbn [fst snd] in C.
      rewrite (C (or_intror eq_refl) K). reflexivity.
    + injection H as <- <-. split; [exists (String c buf); reflexivity|].
      cbn. pose proof (end_is_eof s c S) as C. rewrite E in C.
      rewrite (C eq_refl). reflexivity.
    + discriminate H.
Qed.

(** A value that ends before the end of the input is found again, the
    same, whatever is appended to the input. *)
Lemma scan_app (buf rest : string) : forall (s : scanner.scanner) (v : string),
  stream.scan s buf = stream.Found v true ->
  stream.scan s (buf ++ rest) = stream.Found v true.
Proof.
  induction buf as [|c buf IH]; intros s v H.
  - cbn in H. destruct (fst (scanner.call s " ")); discriminate H.
  - cbn in H |- *. destruct (scanner.call s c) as [k s'].
    assert (step_case :
              stream.push c (stream.scan s' buf) = stream.Found v true ->
              stream.push c (stream.scan s' (buf ++ rest)) = stream.Found v true).
    { intros Hp.
      destruct (stream.scan s' buf) as [v' i'|] eqn:Ev; cbn in Hp; [|discriminate Hp].
      injection Hp as <- ->. rewrite (IH s' v' Ev). reflexivity. }
    destruct k; try (apply step_case; exact H); try exact H;
      destruct (fst (scanner.stateEndValue_ s' " "));
      try (apply step_case; exact H); exact H.
Qed.

Lemma prefixes_app (v rest : string) : In v (prefixes (v ++ rest)).
Proof.
  induction v as [|c v IH]; cbn.
  - destruct rest; left; reflexivity.
  - right. apply in_map, IH.
Qed.

(** A body the decoder accepts begins with a well-formed JSON text. *)
Lemma accepted_body_has_value
  (unmarshal : string -> Rx + error) (body : string) (rx : Rx) :
  stream.Decode unmarshal body = inl rx ->
  exists v rest, body = v ++ rest /\ scanner.Valid v = true.
Proof.
  unfold stream.Decode, stream.readValue. intros H.
  destruct (stream.scan scanner.reset body) as [v inside|[e|]] eqn:E;
    try discriminate H.
  destruct (scan_valid body scanner.reset v inside sound_reset E) as ((rest & B) & V).
  exists v, rest. split; [exact B|exact V].
Qed.

(** C8, against the claim: the body made of the event of a button followed
    by [}}} not json] is not well-formed JSON, and the decoder accepts it as
    that event (it reads the object and leaves the rest unread): both
    handlers of both programs answer it with 200 and the command, as they
    answer the event alone, whatever [unmarshal] is. *)
Lemma trailing_garbage_is_answered_200 :
  scanner.Valid (Wire.event "Btn_1" "press" "0") = true
  /\ scanner.Valid (Wire.event "Btn_1" "press" "0" ++ "}}} not json") = false
  /\ stream.Decode Example.Decode (Wire.event "Btn_1" "press" "0" ++ "}}} not json")
     = inl (mkRx "Btn_1" "press" "0")
  /\ http.status (jsonReply (Wire.command "Button" "Btn_1" "SetState" "1"))
     = Some http.StatusOK
  /\ Part000.replyButtonHandler (stream.Decode Example.Decode) http.newWriter
       (Wire.event "Btn_1" "press" "0" ++ "}}} not json") initial
     = (Return (jsonReply (Wire.command "Button" "Btn_1" "SetState" "1")),
        (add_stdout (PrintResponse (mkResponse "Button" "Btn_1" "SetState" "1" "" ""))
           (add_stdout (PrintRx (mkRx "Btn_1" "press" "0")) initial)))
  /\ ServerGo.replyButtonHandler (stream.Decode Example.Decode) http.newWriter
       (Wire.event "Btn_1" "press" "0" ++ "}}} not json") initial
     = (Return (jsonReply (Wire.command "Button" "Btn_1" "SetState" "1")),
        (add_stdout (PrintResponse (mkResponse "Button" "Btn_1" "SetState" "1" "" ""))
           (add_stdout (PrintRx (mkRx "Btn_1" "press" "0")) initial)))
  /\ Part000.replySliderHandler (stream.Decode Example.Decode) http.newWriter
       (Wire.event "Btn_1" "press" "0" ++ "}}} not json") initial
     = (Return (jsonReply (Wire.command "Slider" "Btn_1" "SetFill" "0")),
        (add_stdout (PrintResponse (mkResponse "Slider" "Btn_1" "SetFill" "0" "" ""))
           (add_stdout (PrintRx (mkRx "Btn_1" "press" "0")) initial)))
  /\ ServerGo.replySliderHandler (stream.Decode Example.Decode) http.newWriter
       (Wire.event "Btn_1" "press" "0" ++ "}}} not json") initial
     = (Return (jsonReply (Wire.command "Slider" "Btn_1" "SetFill" "0")),
        (add_stdout (PrintResponse (mkResponse "Slider" "Btn_1" "SetFill" "0" "" ""))
           (add_stdout (PrintRx (mkRx "Btn_1" "press" "0")) initial)))
  /\ (forall (unmarshal : string -> Rx + error) (w : World),
        Part000.replyButtonHandler (stream.Decode unmarshal) http.newWriter
            (Wire.event "Btn_1" "press" "0" ++ "}}} not json") w
          = Part000.replyButtonHandler (stream.Decode unmarshal) http.newWriter
              (Wire.event "Btn_1" "press" "0") w
        /\ Part000.replySliderHandler (stream.Decode unmarshal) http.newWriter
            (Wire.event "Btn_1" "press" "0" ++ "}}} not json") w
          = Part000.replySliderHandler (stream.Decode unmarshal) http.newWriter
              (Wire.event "Btn_1" "press" "0") w
        /\ ServerGo.replyButtonHandler (stream.Decode unmarshal) http.newWriter
            (Wire.event "Btn_1" "press" "0" ++ "}}} not json") w
          = ServerGo.replyButtonHandler (stream.Decode unmarshal) http.newWriter
              (Wire.event "Btn_1" "press" "0") w
        /\ ServerGo.replySliderHandler (stream.Decode unmarshal) http.newWriter
            (Wire.event "Btn_1" "press" "0" ++ "}}} not json") w
          = ServerGo.replySliderHandler (stream.Decode unmarshal) http.newWriter
              (Wire.event "Btn_1" "press" "0") w).
Proof.
  split; [vm_compute; reflexivity|].
  split; [vm_compute; reflexivity|].
  split; [vm_compute; reflexivity|].
  split; [reflexivity|].
  split; [vm_compute; reflexivity|].
  split; [vm_compute; reflexivity|].
  split; [vm_compute; reflexivity|].
  split; [vm_compute; reflexivity|].
  intros unmarshal w.
  assert (D : stream.Decode unmarshal
                (Wire.event "Btn_1" "press" "0" ++ "}}} not json")
              = stream.Decode unmarshal (Wire.event "Btn_1" "press" "0")).
  { unfold stream.Decode.
    replace (stream.readValue (Wire.event "Btn_1" "press" "0" ++ "}}} not json"))
      with (stream.readValue (Wire.event "Btn_1" "press" "0"))
      by (vm_compute; reflexivity).
    reflexivity. }
  unfold Part000.replyButtonHandler, Part000.replySliderHandler,
    ServerGo.replyButtonHandler, ServerGo.replySliderHandler.
  rewrite D. repeat split.
Qed.

(** C8, amended.  A body the decoder refuses gets, from the button and the
    slider handler of both programs, the 400 answer of [http.Error], and the
    world is left exactly as it was: nothing is written to the processor,
    and the connection, the open sockets and the dial count do not change.
    Go's decoder refuses every body that does not begin with a complete JSON
    value (the empty body is one), and every body whose first value
    [unmarshal] cannot store in the event.  It reads that first value only:
    when the search for its end stops at a byte of the body, the body with
    anything appended is decoded as the body is. *)
Theorem unreadable_body_is_rejected :
  (forall (Decode : Decoder) (body : string) (e : error) (w : World),
      Decode body = inr e ->
      http.status invalidJSON = Some http.StatusBadRequest
      /\ Part000.replyButtonHandler Decode http.newWriter body w = (Return invalidJSON, w)
      /\ Part000.replySliderHandler Decode http.newWriter body w = (Return invalidJSON, w)
      /\ ServerGo.replyButtonHandler Decode http.newWriter body w = (Return invalidJSON, w)
      /\ ServerGo.replySliderHandler Decode http.newWriter body w = (Return invalidJSON, w))
  /\ (forall (unmarshal : string -> Rx + error) (body : string),
        noValueAtStart body = true ->
        exists e, stream.Decode unmarshal body = inr e)
  /\ (forall (unmarshal : string -> Rx + error) (body v : string) (e : error),
        stream.readValue body = inl v -> unmarshal v = inr e ->
        stream.Decode unmarshal body = inr e)
  /\ (forall (unmarshal : string -> Rx + error) (body v rest : string),
        stream.scan scanner.reset body = stream.Found v true ->
        stream.Decode unmarshal (body ++ rest) = unmarshal v
        /\ stream.Decode unmarshal body = unmarshal v).
Proof.
  split; [exact refused_body_gets_400|].
  split; [|split].
  - intros unmarshal body N.
    destruct (stream.Decode unmarshal body) as [rx|e] eqn:D; [|exists e; reflexivity].
    exfalso.
    destruct (accepted_body_has_value unmarshal body rx D) as (v & rest & -> & V).
    unfold noValueAtStart in N. rewrite forallb_forall in N.
    specialize (N v (prefixes_app v rest)). rewrite V in N. discriminate N.
  - intros unmarshal body v e R U. unfold stream.Decode. rewrite R. exact U.
  - intros unmarshal body v rest F. unfold stream.Decode, stream.readValue.
    rewrite (scan_app body rest scanner.reset v F), F. split; reflexivity.
Qed.

Lemma unreadable_body_is_rejected_witness :
  (noValueAtStart "{name:" = true
   /\ http.status invalidJSON = Some http.StatusBadRequest
   /\ Part000.replyButtonHandler (stream.Decode Example.Decode) http.newWriter
        "{name:" initial
      = (Return invalidJSON, initial)
   /\ Part000.replySliderHandler (stream.Decode Example.Decode) http.newWriter
        "{name:" initial
      = (Return invalidJSON, initial)
   /\ ServerGo.replyButtonHandler (stream.Decode Example.Decode) http.newWriter
        "{name:" initial
      = (Return invalidJSON, initial)
   /\ ServerGo.replySliderHandler (stream.Decode Example.Decode) http.newWriter
        "{name:" initial
      = (Return invalidJSON, initial))
  /\ (stream.readValue "[1] x" = inl "[1]"
      /\ Example.Decode "[1]" = inr "invalid character ["
      /\ stream.Decode Example.Decode "[1] x" = inr "invalid character [")
  /\ (stream.scan scanner.reset (Wire.event "Btn_1" "press" "0")
      = stream.Found (Wire.event "Btn_1" "press" "0") true
      /\ stream.Decode Example.Decode (Wire.event "Btn_1" "press" "0" ++ "}}} not json")
         = Example.Decode (Wire.event "Btn_1" "press" "0")
      /\ stream.Decode Example.Decode (Wire.event "Btn_1" "press" "0")
         = Example.Decode (Wire.event "Btn_1" "press" "0")).
Proof.
  destruct unreadable_body_is_rejected as (A & B & C & D).
  split; [|split].
  - split; [vm_compute; reflexivity|].
    destruct (B Example.Decode "{name:") as (e & R); [vm_compute; reflexivity|].
    exact (A (stream.Decode Example.Decode) "{name:" e initial R).
  - split; [vm_compute; reflexivity|].
    split; [vm_compute; reflexivity|].
    apply (C Example.Decode "[1] x" "[1]" "invalid character [");
      vm_compute; reflexivity.
  - split; [vm_compute; reflexivity|].
    apply (D Example.Decode (Wire.event "Btn_1" "press" "0")
             (Wire.event "Btn_1" "press" "0") "}}} not json").
    vm_compute; reflexivity.
Defined.

Lemma button_answers (Decode : Decoder) (body : string) (w : World) :
  exists rw w',
    Part000.replyButtonHandler Decode http.newWriter body w = (Return rw, w')
    /\ (rw = invalidJSON \/ exists b, rw = jsonReply b)
    /\ conn w' = conn w /\ connErr w' = connErr w /\ connMu w' = connMu w
    /\ open w' = open w /\ next w' = next w /\ dials w' = dials w
    /\ wire w' = wire w.
Proof.
  unfold Part000.replyButtonHandler.
  destruct (Decode body) as [rx | e].
  - unfold bind, fmt_Print, modify.
    destruct (slices_Contains Part000.dontToggleButtons (Name rx)) eqn:E.
    + apply slices_Contains_In in E.
      rewrite (toggle_excluded rx _ E).
      do 2 eexists. split; [reflexivity |].
      split; [right; exists ""; reflexivity |]. repeat split.
    + assert (~ In (Name rx) Part000.dontToggleButtons) as N.
      { intros HI. apply slices_Contains_In in HI. congruence. }
      rewrite (toggle_command rx _ N).
      destruct (Marshal_ok (mkResponse "Button" (Name rx) "SetState"
                  (if String.eqb (Value rx) "0" then "1" else "0") "" "")) as (b & Eb).
      rewrite Eb.
      do 2 eexists. split; [reflexivity |].
      split; [right; exists b; reflexivity |]. repeat split.
  - do 2 eexists. split; [reflexivity |].
    split; [left; reflexivity |]. repeat split.
Qed.

Lemma slider_answers (Decode : Decoder) (body : string) (w : World) :
  exists rw w',
    Part000.replySliderHandler Decode http.newWriter body w = (Return rw, w')
    /\ (rw = invalidJSON \/ exists b, rw = jsonReply b)
    /\ conn w' = conn w /\ connErr w' = connErr w /\ connMu w' = connMu w
    /\ open w' = open w /\ next w' = next w /\ dials w' = dials w
    /\ wire w' = wire w.
Proof.
  destruct (Decode body) as [rx | e] eqn:E.
  - destruct (slider_part000 Decode body rx w E) as (b & _ & ->).
    do 2 eexists. split; [reflexivity |].
    split; [right; exists b; reflexivity |]. repeat split.
  - unfold Part000.replySliderHandler. rewrite E.
    do 2 eexists. split; [reflexivity |].
    split; [left; reflexivity |]. repeat split.
Qed.

Lemma answers_not_500 (rw : http.ResponseWriter) :
  rw = invalidJSON \/ (exists b, rw = jsonReply b) ->
  http.status rw <> Some http.StatusInternalServerError.
Proof.
  intros [-> | (b & ->)]; discriminate.
Qed.

(** C9. For every command, [json.Marshal] returns no error; so the toggle
    never returns one, and for every decoder, body and world the button and
    the slider handler return an answer that is not the 500 of the
    serialization-failure branch. *)
Theorem serialization_never_fails :
  (forall r : Response, exists b, json.Marshal r = (Some b, None))
  /\ (forall rx w, exists reply w',
        Part000.btnVisStateToggle rx w = (Return (reply, None), w'))
  /\ (forall (Decode : Decoder) body w, exists rw w',
        Part000.replyButtonHandler Decode http.newWriter body w = (Return rw, w')
        /\ http.status rw <> Some http.StatusInternalServerError)
  /\ (forall (Decode : Decoder) body w, exists rw w',
        Part000.replySliderHandler Decode http.newWriter body w = (Return rw, w')
        /\ http.status rw <> Some http.StatusInternalServerError)
  /\ (forall (Decode : Decoder) body w, exists rw w',
        ServerGo.replySliderHandler Decode http.newWriter body w = (Return rw, w')
        /\ http.status rw <> Some http.StatusInternalServerError).
Proof.
  split; [exact Marshal_ok |]. split.
  { intros rx w.
    destruct (slices_Contains Part000.dontToggleButtons (Name rx)) eqn:E.
    - apply slices_Contains_In in E. rewrite (toggle_excluded rx w E).
      do 2 eexists. reflexivity.
    - assert (~ In (Name rx) Part000.dontToggleButtons) as N.
      { intros HI. apply slices_Contains_In in HI. congruence. }
      rewrite (toggle_command rx w N).
      destruct (Marshal_ok (mkResponse "Button" (Name rx) "SetState"
                  (if String.eqb (Value rx) "0" then "1" else "0") "" "")) as (b & ->).
      do 2 eexists. reflexivity. }
  split; [| split].
  - intros Decode body w.
    destruct (button_answers Decode body w) as (rw & w' & E & A & _).
    exists rw, w'. split; [exact E | exact (answers_not_500 rw A)].
  - intros Decode body w.
    destruct (slider_answers Decode body w) as (rw & w' & E & A & _).
    exists rw, w'. split; [exact E | exact (answers_not_500 rw A)].
  - intros Decode body w.
    destruct (slider_answers Decode body w) as (rw & w' & E & A & _).
    exists rw, w'. split; [exact E | exact (answers_not_500 rw A)].
Qed.

(** C10. The two programs agree at the HTTP boundary: on every event and
    world the two toggle functions return the same result (and print the
    same), and on every decoder, writer, body and world the two slider
    handlers, and the two button handlers, leave the same answer. *)
Theorem variants_agree :
  (forall rx w, ServerGo.btnVisStateToggle rx w = Part000.btnVisStateToggle rx w)
  /\ (forall (Decode : Decoder) rw body w,
        ServerGo.replySliderHandler Decode rw body w
        = Part000.replySliderHandler Decode rw body w)
  /\ (forall (Decode : Decoder) rw body w,
        ServerGo.replyButtonHandler Decode rw body w
        = Part000.replyButtonHandler Decode rw body w).
Proof.
  repeat split.
Qed.

(** ** The connection manager of part_000 *)

Lemma Inv_initial : Inv initial.
Proof. repeat split. Qed.

Lemma Inv_add_wire (x : Written) (w : World) : Inv w -> Inv (add_wire x w).
Proof. world w. trivial. Qed.

Lemma Inv_add_stdout (e : LogEvent) (w : World) : Inv w -> Inv (add_stdout e w).
Proof. world w. trivial. Qed.

Lemma Inv_invalidated (w : World) : Inv (invalidated w).
Proof. repeat split. Qed.

Lemma Inv_acquired (answer : option error) (w : World) : Inv w -> Inv (acquired answer w).
Proof.
  intros H. unfold acquired. destruct (conn w) eqn:E; [assumption |].
  destruct answer; repeat split. cbn. lia.
Qed.

Lemma Inv_closed (w : World) : Inv w -> Inv (closed w).
Proof.
  intros H. unfold closed. destruct (conn w); [apply Inv_invalidated | assumption].
Qed.

Lemma Inv_written c data r (w : World) : Inv w -> Inv (written c data r w).
Proof.
  intros H. unfold written. destruct r; [apply Inv_invalidated |].
  apply Inv_add_wire, H.
Qed.

Lemma Inv_afterSend env data (w : World) : Inv w -> Inv (afterSend env data w).
Proof.
  intros H. unfold afterSend.
  pose proof (Inv_acquired (dial env) w H) as H1.
  destruct (conn (acquired (dial env) w)); [apply Inv_written, H1 |].
  destruct (dial env); [apply Inv_add_stdout, H1 | exact H1].
Qed.

Lemma Inv_one (w : World) : Inv w -> OneConnection w.
Proof.
  intros (_ & Ho & _). unfold OneConnection.
  destruct (conn w) as [c |]; [right; exists c | left]; split; trivial.
Qed.

Lemma Inv_rest (w : World) : Inv w -> AtRest w.
Proof. intros (H1 & H2 & _). split; assumption. Qed.

Lemma rest_one (w : World) : AtRest w -> OneConnection w.
Proof.
  intros (_ & Ho). unfold OneConnection.
  destruct (conn w) as [c |]; [right; exists c | left]; split; trivial.
Qed.

Lemma one_rest (w : World) : OneConnection w -> connMu w = false -> AtRest w.
Proof.
  intros [(Hc & Ho) | (c & Hc & Ho)] Hm; split; try assumption; rewrite Hc, Ho;
    reflexivity.
Qed.

Lemma rest_add_wire (x : Written) (w : World) : AtRest w -> AtRest (add_wire x w).
Proof. world w. trivial. Qed.

Lemma rest_add_stdout (e : LogEvent) (w : World) : AtRest w -> AtRest (add_stdout e w).
Proof. world w. trivial. Qed.

Lemma rest_acquired (answer : option error) (w : World) :
  AtRest w -> AtRest (acquired answer w).
Proof.
  intros H. unfold acquired. destruct (conn w) eqn:E; [assumption |].
  destruct answer; repeat split.
Qed.

Lemma rest_closed (w : World) : AtRest w -> AtRest (closed w).
Proof.
  intros H. unfold closed. destruct (conn w); [repeat split | assumption].
Qed.

Lemma rest_written c data r (w : World) : AtRest w -> AtRest (written c data r w).
Proof.
  intros H. unfold written. destruct r; [repeat split |].
  apply rest_add_wire, H.
Qed.

Lemma rest_afterSend env data (w : World) : AtRest w -> AtRest (afterSend env data w).
Proof.
  intros H. unfold afterSend.
  pose proof (rest_acquired (dial env) w H) as H1.
  destruct (conn (acquired (dial env) w)); [apply rest_written, H1 |].
  destruct (dial env); [apply rest_add_stdout, H1 | exact H1].
Qed.

(** [getConn] is AcquireConnection: it returns the shared connection, or
    the error of the dial it made. *)
Lemma getConn_rest (answer : option error) (w : World) :
  AtRest w ->
  Part000.getConn answer w
  = (Return match conn w, answer with
            | None, Some e => (None, Some e)
            | _, _ => (conn (acquired answer w), None)
            end,
     acquired answer w).
Proof.
  world w. intros (Hmu & Hopen). subst.
  destruct conn0, answer; reflexivity.
Qed.

Lemma closeConn_rest (w : World) :
  AtRest w -> Part000.closeConn w = (Return tt, closed w).
Proof.
  world w. intros (Hmu & Hopen). subst.
  destruct conn0 as [c |]; [| reflexivity].
  unfold Part000.closeConn, Lock, defer, bind, get, Close, modify, Unlock. cbn.
  rewrite Nat.eqb_refl. reflexivity.
Qed.

Lemma send_rest (env : Env) (data : option string) (w : World) :
  AtRest w -> Part000.sendToProcessor env data w = (Return tt, afterSend env data w).
Proof.
  intros H. unfold Part000.sendToProcessor, bind.
  rewrite (getConn_rest _ _ H). unfold afterSend.
  pose proof (rest_acquired (dial env) w H) as H1.
  revert H1. unfold acquired.
  destruct (conn w) as [c |] eqn:Ec.
  - intros H1. rewrite Ec. cbn [http.NewRequest http.validMethod].
    cbn -[written req_Write Part000.closeConn].
    unfold req_Write. destruct H as (_ & Ho). rewrite Ec in Ho. rewrite Ho.
    cbn [existsb]. rewrite Nat.eqb_refl. cbn [orb].
    unfold written. destruct (write env) as [e |]; [| reflexivity].
    unfold fmt_Println, modify.
    rewrite closeConn_rest by (apply rest_add_stdout, rest_add_wire, H1).
    unfold closed. cbn [conn add_stdout add_wire]. rewrite Ec. reflexivity.
  - destruct (dial env) as [e |]; intros H1; [reflexivity |].
    cbn -[written req_Write Part000.closeConn].
    unfold req_Write. cbn [open dialled existsb]. rewrite Nat.eqb_refl. cbn [orb].
    unfold written. destruct (write env) as [e |]; [| reflexivity].
    unfold fmt_Println, modify.
    rewrite closeConn_rest by (apply rest_add_stdout, rest_add_wire, H1).
    reflexivity.
Qed.

Lemma getConn_spec (answer : option error) (w : World) :
  Inv w ->
  Part000.getConn answer w
  = (Return match conn w, answer with
            | None, Some e => (None, Some e)
            | _, _ => (conn (acquired answer w), None)
            end,
     acquired answer w).
Proof. intros H. apply getConn_rest, Inv_rest, H. Qed.

Lemma closeConn_spec (w : World) :
  Inv w -> Part000.closeConn w = (Return tt, closed w).
Proof. intros H. apply closeConn_rest, Inv_rest, H. Qed.

Lemma send_spec (env : Env) (data : option string) (w : World) :
  Inv w -> Part000.sendToProcessor env data w = (Return tt, afterSend env data w).
Proof. intros H. apply send_rest, Inv_rest, H. Qed.

Lemma tick_spec (now : time.Time) (env : Env) :
  exists b,
    json.Marshal (Part000.timeLabel now) = (Some b, None)
    /\ forall w, Part000.sendTestSetLabel now env w = Part000.sendToProcessor env (Some b) w.
Proof.
  destruct (Marshal_ok (Part000.timeLabel now)) as (b & Eb). exists b.
  split; [exact Eb |]. intros w.
  unfold Part000.sendTestSetLabel. rewrite Eb. reflexivity.
Qed.

Lemma exec_preserves (w : World) (op : Part000.Op) : Inv w -> Inv (Part000.exec w op).
Proof.
  intros H. destruct op as [answer | | env data | now env]; cbn [Part000.exec].
  - rewrite getConn_spec by assumption. apply Inv_acquired, H.
  - rewrite closeConn_spec by assumption. apply Inv_closed, H.
  - rewrite send_spec by assumption. apply Inv_afterSend, H.
  - destruct (tick_spec now env) as (b & _ & ->).
    rewrite send_spec by assumption. apply Inv_afterSend, H.
Qed.

Lemma execAll_preserves (ops : list Part000.Op) :
  forall w, Inv w -> Inv (Part000.execAll ops w).
Proof.
  induction ops as [| op ops IH]; intros w H; [exact H |].
  cbn [Part000.execAll fold_left]. apply IH, exec_preserves, H.
Qed.

(** While another caller holds the mutex, an operation blocks on it and
    changes nothing. *)
Lemma exec_held (w : World) (op : Part000.Op) :
  connMu w = true -> Part000.exec w op = w.
Proof.
  world w. intros ->. destruct op as [answer | | env data | now env]; reflexivity.
Qed.

Lemma exec_rest (w : World) (op : Part000.Op) : AtRest w -> AtRest (Part000.exec w op).
Proof.
  intros H. destruct op as [answer | | env data | now env]; cbn [Part000.exec].
  - rewrite getConn_rest by assumption. apply rest_acquired, H.
  - rewrite closeConn_rest by assumption. apply rest_closed, H.
  - rewrite send_rest by assumption. apply rest_afterSend, H.
  - destruct (tick_spec now env) as (b & _ & ->).
    rewrite send_rest by assumption. apply rest_afterSend, H.
Qed.

(** C1. In the initial state the shared connection is nil and no socket is
    open.  From every state in which either the shared connection is nil
    and no socket is open, or it is one socket and that socket is the only
    one open, each operation of the connection manager (get-or-create,
    close-and-invalidate, send, tick), whatever the dial and the write
    answer, leads to such a state again.  So after every sequence of
    operations from the start at most one socket is open, the shared one. *)
Theorem one_live_connection :
  OneConnection initial
  /\ (forall w op, OneConnection w -> OneConnection (Part000.exec w op))
  /\ (forall ops,
        OneConnection (Part000.execAll ops initial)
        /\ length (open (Part000.execAll ops initial)) <= 1).
Proof.
  split; [left; split; reflexivity |]. split.
  - intros w op H. destruct (connMu w) eqn:Hm.
    + rewrite (exec_held w op Hm). exact H.
    + apply rest_one, exec_rest, one_rest; assumption.
  - intros ops.
    pose proof (execAll_preserves ops initial Inv_initial) as H.
    split; [apply Inv_one, H |].
    destruct H as (_ & -> & _). destruct (conn _); cbn; lia.
Qed.

Lemma server_tick_spec (now : time.Time) :
  exists b,
    json.Marshal (ServerGo.timeLabel now) = (Some b, None)
    /\ forall c answer w,
         ServerGo.sendTestSetLabel (Some c) now answer w
         = (Return tt, serverTick c (Some b) answer w).
Proof.
  destruct (Marshal_ok (ServerGo.timeLabel now)) as (b & Eb). exists b.
  split; [exact Eb |]. intros c answer w.
  unfold ServerGo.sendTestSetLabel. rewrite Eb.
  cbn -[req_Write]. unfold bind, req_Write, serverTick.
  destruct (if existsb (Nat.eqb c) (open w) then answer else Some errClosed);
    reflexivity.
Qed.

Lemma existsb_eqb_In (c : fd) (l : list fd) : In c l -> existsb (Nat.eqb c) l = true.
Proof.
  intros H. apply existsb_exists. exists c. split; [exact H | apply Nat.eqb_refl].
Qed.

Lemma serverTick_effect c data answer (w : World) :
  In c (open w) ->
  open (serverTick c data answer w) = open w
  /\ dials (serverTick c data answer w) = dials w
  /\ wire (serverTick c data answer w) = mkWritten c (postRequest data) answer :: wire w.
Proof.
  intros H. unfold serverTick. rewrite (existsb_eqb_In c _ H).
  destruct answer; repeat split.
Qed.

(** C2, against the claim: in server.go a failed write closes nothing and
    no dial follows.  The process dials once in [main]; its first tick
    fails to write, its second tick writes on the same socket 0, which is
    still open, and the dial of [main] stays the only one. *)
Lemma server_go_reuses_failed_connection :
  exists w,
    ServerGo.run Example.Decode (ServerGo.main None None initial)
      [ServerGo.Tick (time.mkTime 0 0) (Some "broken pipe");
       ServerGo.Tick (time.mkTime 1 0) None]
    = ServerGo.Running (Some 0) w
    /\ open w = [0] /\ dials w = 1
    /\ map to (wire w) = [0; 0]
    /\ map result (wire w) = [None; Some "broken pipe"].
Proof.
  eexists. split; [reflexivity |]. repeat split.
Qed.

(** C2, amended.  In part_000, a Send whose write on the connection [c]
    fails (with [c] the shared connection, or the one this Send dialled)
    returns with the shared connection nil and no socket open, after that
    one write and no other; the Send that follows dials, whatever its
    answers, and if its dial connects it writes on a socket other than [c].
    In server.go, a tick whose write on the connection [c] of [main] fails
    makes that one write and leaves [c] open; the next tick writes on [c]
    again and nothing ever dials. *)
Theorem failed_write_invalidates :
  (forall w env data c e,
      Inv w ->
      conn w = Some c \/ (conn w = None /\ dial env = None /\ c = next w) ->
      write env = Some e ->
      exists w1,
        Part000.sendToProcessor env data w = (Return tt, w1)
        /\ conn w1 = None /\ open w1 = []
        /\ wire w1 = mkWritten c (postRequest data) (Some e) :: wire w
        /\ forall env' data', exists w2,
             Part000.sendToProcessor env' data' w1 = (Return tt, w2)
             /\ dials w2 = S (dials w1)
             /\ (dial env' = None ->
                 exists c', c' <> c
                   /\ wire w2 = mkWritten c' (postRequest data') (write env') :: wire w1))
  /\ (forall w c now e,
      In c (open w) ->
      exists b w1,
        json.Marshal (ServerGo.timeLabel now) = (Some b, None)
        /\ ServerGo.sendTestSetLabel (Some c) now (Some e) w = (Return tt, w1)
        /\ open w1 = open w /\ dials w1 = dials w
        /\ wire w1 = mkWritten c (postRequest (Some b)) (Some e) :: wire w
        /\ forall now' answer, exists b' w2,
             json.Marshal (ServerGo.timeLabel now') = (Some b', None)
             /\ ServerGo.sendTestSetLabel (Some c) now' answer w1 = (Return tt, w2)
             /\ open w2 = open w /\ dials w2 = dials w
             /\ wire w2 = mkWritten c (postRequest (Some b')) answer :: wire w1).
Proof.
  split.
  - intros w env data c e HI Hc Hw.
    exists (afterSend env data w). split; [apply send_spec, HI |].
    assert (afterSend env data w
            = written c data (Some e) (acquired (dial env) w)
            /\ c < next (acquired (dial env) w)) as (E & Hlt).
    { unfold afterSend, acquired. rewrite Hw.
      destruct Hc as [Hc | (Hc & Hd & ->)].
      - rewrite Hc. cbn [conn]. rewrite Hc. split; [reflexivity |].
        destruct HI as (_ & _ & HI). rewrite Hc in HI. exact HI.
      - rewrite Hc, Hd. cbn. split; [reflexivity | lia]. }
    rewrite E. split; [reflexivity |]. split; [reflexivity |]. split.
    { unfold acquired. destruct Hc as [Hc | (Hc & Hd & ->)].
      - rewrite Hc. reflexivity.
      - rewrite Hc, Hd. reflexivity. }
    intros env' data'.
    set (w1 := written c data (Some e) (acquired (dial env) w)) in *.
    assert (Inv w1) as HI1 by (apply Inv_written, Inv_acquired, HI).
    exists (afterSend env' data' w1). split; [apply send_spec, HI1 |].
    assert (next w1 = next (acquired (dial env) w)) as En by reflexivity.
    unfold afterSend, acquired. change (conn w1) with (@None fd).
    destruct (dial env') as [e' |]; cbn [conn refused dialled].
    + split; [reflexivity | discriminate].
    + split; [unfold written; destruct (write env'); reflexivity |].
      intros _. exists (next w1). split; [lia |].
      unfold written. destruct (write env'); reflexivity.
  - intros w c now e Hin.
    destruct (server_tick_spec now) as (b & Eb & Et).
    destruct (serverTick_effect c (Some b) (Some e) w Hin) as (Eo & Ed & Ew).
    exists b, (serverTick c (Some b) (Some e) w).
    split; [exact Eb |]. split; [apply Et |].
    split; [exact Eo |]. split; [exact Ed |]. split; [exact Ew |].
    intros now' answer.
    destruct (server_tick_spec now') as (b' & Eb' & Et').
    exists b', (serverTick c (Some b') answer (serverTick c (Some b) (Some e) w)).
    split; [exact Eb' |]. split; [apply Et' |].
    rewrite <- Eo in Hin.
    destruct (serverTick_effect c (Some b') answer _ Hin) as (Eo' & Ed' & Ew').
    split; [congruence |]. split; [congruence | exact Ew'].
Qed.

Lemma failed_write_invalidates_witness :
  exists w1,
    Part000.sendToProcessor (mkEnv None (Some "broken pipe")) (Some "x") initial
    = (Return tt, w1)
    /\ conn w1 = None /\ open w1 = []
    /\ wire w1 = [mkWritten 0 (postRequest (Some "x")) (Some "broken pipe")].
Proof.
  destruct (proj1 failed_write_invalidates initial
              (mkEnv None (Some "broken pipe")) (Some "x") 0 "broken pipe")
    as (w1 & E & Hc & Ho & Hw & _).
  - apply Inv_initial.
  - right. repeat split.
  - reflexivity.
  - exists w1. repeat split; assumption.
Defined.

(** C6, against the claim: when the write of the first Send fails, the
    second Send dials again, and two dials have been made. *)
Lemma failed_write_costs_a_second_dial :
  ~ (forall env1 env2 data1 data2,
        dial env1 = None ->
        dials (Part000.execAll
                 [Part000.OpSend env1 data1; Part000.OpSend env2 data2] initial) = 1).
Proof.
  intros H.
  specialize (H (mkEnv None (Some "broken pipe")) (mkEnv None None)
                (Some "a") (Some "b") eq_refl).
  discriminate H.
Qed.

(** C6, amended.  Once connected, [getConn] returns the shared connection
    and changes nothing: no dial, whatever a dial would answer.  Two
    consecutive Sends from Disconnected whose first dial connects make
    exactly one dial, and both write on the connection it returned,
    provided the write of the first Send does not fail; two consecutive
    Sends from Connected make no dial under the same proviso. *)
Theorem acquire_is_idempotent :
  (forall w c answer,
      Inv w -> conn w = Some c ->
      Part000.getConn answer w = (Return (Some c, None), w))
  /\ (forall w env1 env2 data1 data2,
        Inv w -> conn w = None -> dial env1 = None -> write env1 = None ->
        let w2 := Part000.execAll
                    [Part000.OpSend env1 data1; Part000.OpSend env2 data2] w in
        dials w2 = S (dials w)
        /\ wire w2 = mkWritten (next w) (postRequest data2) (write env2)
                     :: mkWritten (next w) (postRequest data1) None :: wire w)
  /\ (forall w c env1 env2 data1 data2,
        Inv w -> conn w = Some c -> write env1 = None ->
        let w2 := Part000.execAll
                    [Part000.OpSend env1 data1; Part000.OpSend env2 data2] w in
        dials w2 = dials w
        /\ wire w2 = mkWritten c (postRequest data2) (write env2)
                     :: mkWritten c (postRequest data1) None :: wire w).
Proof.
  split; [| split].
  - intros w c answer HI Hc. rewrite getConn_spec by assumption.
    unfold acquired. rewrite Hc. cbn [conn]. rewrite Hc. reflexivity.
  - intros w env1 env2 data1 data2 HI Hc Hd Hw.
    cbn [Part000.execAll fold_left Part000.exec].
    rewrite (send_spec env1 data1 w HI). cbn [snd].
    rewrite send_spec by (apply Inv_afterSend, HI). cbn [snd].
    assert (afterSend env1 data1 w
            = add_wire (mkWritten (next w) (postRequest data1) None) (dialled w)) as E.
    { unfold afterSend, acquired. rewrite Hc, Hd, Hw. reflexivity. }
    rewrite E. unfold afterSend, acquired. cbn [conn add_wire dialled].
    unfold written. destruct (write env2); split; reflexivity.
  - intros w c env1 env2 data1 data2 HI Hc Hw.
    cbn [Part000.execAll fold_left Part000.exec].
    rewrite (send_spec env1 data1 w HI). cbn [snd].
    rewrite send_spec by (apply Inv_afterSend, HI). cbn [snd].
    assert (afterSend env1 data1 w = add_wire (mkWritten c (postRequest data1) None) w) as E.
    { unfold afterSend, acquired. rewrite Hc. cbn [conn]. rewrite Hc, Hw. reflexivity. }
    rewrite E. unfold afterSend, acquired. cbn [conn add_wire]. rewrite !Hc.
    cbn [conn add_wire]. rewrite ?Hc.
    unfold written. destruct (write env2); split; reflexivity.
Qed.

Lemma acquire_is_idempotent_witness :
  dials (Part000.execAll
           [Part000.OpSend (mkEnv None None) (Some "a");
            Part000.OpSend (mkEnv None None) (Some "b")] initial) = 1.
Proof.
  apply (proj1 (proj2 acquire_is_idempotent) initial
           (mkEnv None None) (mkEnv None None) (Some "a") (Some "b")).
  - apply Inv_initial.
  - reflexivity.
  - reflexivity.
  - reflexivity.
Defined.

(** ** The clock string of the label *)

Section ClockFacts.
Local Open Scope N_scope.

Lemma digit_value d : d < 10 -> N_of_ascii (time.digit d) = 48 + d.
Proof.
  intros H. unfold time.digit. apply N_ascii_embedding. lia.
Qed.

Lemma digit_compare a b :
  a < 10 -> b < 10 -> Ascii.compare (time.digit a) (time.digit b) = (a ?= b).
Proof.
  intros Ha Hb. unfold Ascii.compare. rewrite !digit_value by assumption.
  destruct (N.compare_spec (48 + a) (48 + b)), (N.compare_spec a b);
    reflexivity || lia.
Qed.

(** Comparing two numbers digit group by digit group, most significant
    first, is comparing the numbers. *)
Lemma lex_radix P da db a0 b0 (c : comparison) :
  a0 < P -> b0 < P ->
  match da ?= db with
  | Eq => match a0 ?= b0 with Eq => c | o => o end
  | o => o
  end
  = match da * P + a0 ?= db * P + b0 with Eq => c | o => o end.
Proof.
  intros Ha Hb.
  destruct (N.compare_spec da db) as [E | L | G].
  - subst.
    destruct (N.compare_spec a0 b0), (N.compare_spec (db * P + a0) (db * P + b0));
      reflexivity || lia.
  - assert (da * P + a0 < db * P + b0) as H by nia.
    apply N.compare_lt_iff in H. rewrite H. reflexivity.
  - assert (db * P + b0 < da * P + a0) as H by nia.
    apply N.compare_gt_iff in H. rewrite H. reflexivity.
Qed.

Lemma digits_compare k : forall a b s s',
  String.compare (time.digits k a ++ s) (time.digits k b ++ s')
  = match a mod 10 ^ N.of_nat k ?= b mod 10 ^ N.of_nat k with
    | Eq => String.compare s s'
    | o => o
    end.
Proof.
  induction k as [| k IH]; intros a b s s'.
  - cbn [time.digits N.of_nat]. rewrite !N.mod_1_r. reflexivity.
  - cbn [time.digits append String.compare].
    rewrite digit_compare by (apply N.mod_lt; lia).
    rewrite IH.
    rewrite Nat2N.inj_succ, N.pow_succ_r'.
    rewrite (N.mul_comm 10).
    rewrite !N.Div0.mod_mul_r.
    set (P := 10 ^ N.of_nat k).
    assert (P <> 0) by (apply N.pow_nonzero; lia).
    rewrite (N.add_comm (a mod P)), (N.add_comm (b mod P)), !(N.mul_comm P).
    apply lex_radix; apply N.mod_lt; assumption.
Qed.

Lemma literal_compare c s s' :
  String.compare (String c s) (String c s') = String.compare s s'.
Proof.
  cbn [String.compare]. unfold Ascii.compare. rewrite N.compare_refl. reflexivity.
Qed.

Lemma clock_split (t : time.Time) :
  time.abs t = time.abs t / time.secondsPerDay * 86400
               + time.Hour t * 3600 + time.Minute t * 60 + time.Second t
  /\ time.Hour t < 24 /\ time.Minute t < 60 /\ time.Second t < 60.
Proof.
  unfold time.Hour, time.Minute, time.Second, time.secondsPerDay.
  repeat split; zify; Z.to_euclidean_division_equations; lia.
Qed.

Lemma Format_hundredths t :
  time.Format time.layout_15_04_05_00 t
  = time.digits 2 (time.Hour t) ++ String ":" (time.digits 2 (time.Minute t)
      ++ String ":" (time.digits 2 (time.Second t)
      ++ String "." (time.digits 2 (time.nsec t / 10000000) ++ ""))).
Proof. reflexivity. Qed.

Lemma Format_seconds t :
  time.Format time.layout_15_04_05 t
  = time.digits 2 (time.Hour t) ++ String ":" (time.digits 2 (time.Minute t)
      ++ String ":" (time.digits 2 (time.Second t) ++ "")).
Proof. reflexivity. Qed.

(** Within a day, the strings with hundredths compare as the hundredths of
    a second the instants lie in. *)
Lemma compare_hundredths t1 t2 :
  Clock.wf t1 -> Clock.wf t2 -> Clock.sameDay t1 t2 ->
  String.compare (time.Format time.layout_15_04_05_00 t1)
                 (time.Format time.layout_15_04_05_00 t2)
  = (Clock.hundredth t1 ?= Clock.hundredth t2).
Proof.
  unfold Clock.wf, Clock.sameDay, Clock.hundredth. intros W1 W2 D.
  rewrite !Format_hundredths.
  repeat (rewrite digits_compare || rewrite literal_compare).
  change (10 ^ N.of_nat 2) with 100.
  destruct (clock_split t1) as (E1 & H1 & M1 & S1).
  destruct (clock_split t2) as (E2 & H2 & M2 & S2).
  assert (time.nsec t1 / 10000000 < 100) as C1 by (apply N.Div0.div_lt_upper_bound; lia).
  assert (time.nsec t2 / 10000000 < 100) as C2 by (apply N.Div0.div_lt_upper_bound; lia).
  rewrite !N.mod_small by lia.
  cbn [String.compare].
  rewrite <- D in E2. clear D W1 W2.
  generalize dependent (time.abs t1 / time.secondsPerDay).
  generalize dependent (time.nsec t1 / 10000000).
  generalize dependent (time.nsec t2 / 10000000).
  intros c2 C2 c1 C1 d E1 E2.
  destruct (N.compare_spec (time.Hour t1) (time.Hour t2)),
    (N.compare_spec (time.Minute t1) (time.Minute t2)),
    (N.compare_spec (time.Second t1) (time.Second t2)),
    (N.compare_spec c1 c2);
  match goal with |- _ = (?x ?= ?y) => destruct (N.compare_spec x y) end;
  reflexivity || (exfalso; lia).
Qed.

(** Within a day, the strings without fraction compare as the seconds. *)
Lemma compare_seconds t1 t2 :
  Clock.sameDay t1 t2 ->
  String.compare (time.Format time.layout_15_04_05 t1)
                 (time.Format time.layout_15_04_05 t2)
  = (time.abs t1 ?= time.abs t2).
Proof.
  unfold Clock.sameDay. intros D.
  rewrite !Format_seconds.
  repeat (rewrite digits_compare || rewrite literal_compare).
  change (10 ^ N.of_nat 2) with 100.
  destruct (clock_split t1) as (E1 & H1 & M1 & S1).
  destruct (clock_split t2) as (E2 & H2 & M2 & S2).
  rewrite !N.mod_small by lia.
  cbn [String.compare].
  rewrite <- D in E2. clear D.
  generalize dependent (time.abs t1 / time.secondsPerDay).
  intros d E1 E2.
  destruct (N.compare_spec (time.Hour t1) (time.Hour t2)),
    (N.compare_spec (time.Minute t1) (time.Minute t2)),
    (N.compare_spec (time.Second t1) (time.Second t2));
  match goal with |- _ = (?x ?= ?y) => destruct (N.compare_spec x y) end;
  reflexivity || (exfalso; lia).
Qed.

Lemma digitValue_digit d : d < 10 -> Clock.digitValue (time.digit d) = Some d.
Proof.
  intros H. unfold Clock.digitValue. rewrite digit_value by assumption.
  replace ((48 <=? 48 + d) && (48 + d <=? 57)) with true
    by (symmetry; apply andb_true_intro; split; apply N.leb_le; lia).
  f_equal. lia.
Qed.

Lemma two_digits x :
  x < 100 ->
  exists a b, time.digits 2 x = String a (String b "") /\ Clock.two a b = Some x.
Proof.
  intros H. do 2 eexists. split; [reflexivity |].
  change (10 ^ N.of_nat 1) with 10. change (10 ^ N.of_nat 0) with 1.
  unfold Clock.two.
  rewrite !digitValue_digit by (apply N.mod_lt; lia).
  f_equal. rewrite N.div_1_r.
  rewrite (N.mod_small (x / 10)) by (apply N.Div0.div_lt_upper_bound; lia).
  symmetry. apply N.div_mod. lia.
Qed.

Lemma read_hundredths t :
  Clock.wf t ->
  Clock.read (time.Format time.layout_15_04_05_00 t)
  = Some (Clock.mkShown (time.Hour t) (time.Minute t) (time.Second t)
                        (Some (time.nsec t / 10000000))).
Proof.
  unfold Clock.wf. intros W. rewrite Format_hundredths.
  destruct (clock_split t) as (_ & H & M & S).
  assert (time.nsec t / 10000000 < 100) as C by (apply N.Div0.div_lt_upper_bound; lia).
  destruct (two_digits (time.Hour t)) as (h1 & h2 & -> & Eh); [lia |].
  destruct (two_digits (time.Minute t)) as (m1 & m2 & -> & Em); [lia |].
  destruct (two_digits (time.Second t)) as (s1 & s2 & -> & Es); [lia |].
  destruct (two_digits (time.nsec t / 10000000)) as (c1 & c2 & -> & Ec); [lia |].
  cbn. rewrite Eh, Em, Es, Ec. reflexivity.
Qed.

Lemma read_seconds t :
  Clock.read (time.Format time.layout_15_04_05 t)
  = Some (Clock.mkShown (time.Hour t) (time.Minute t) (time.Second t) None).
Proof.
  rewrite Format_seconds.
  destruct (clock_split t) as (_ & H & M & S).
  destruct (two_digits (time.Hour t)) as (h1 & h2 & -> & Eh); [lia |].
  destruct (two_digits (time.Minute t)) as (m1 & m2 & -> & Em); [lia |].
  destruct (two_digits (time.Second t)) as (s1 & s2 & -> & Es); [lia |].
  cbn. rewrite Eh, Em, Es. reflexivity.
Qed.

Lemma later_hundredth t1 t2 :
  Clock.wf t1 -> Clock.later t1 t2 -> Clock.hundredth t1 <= Clock.hundredth t2.
Proof.
  unfold Clock.wf, Clock.later, Clock.hundredth. intros W [L | (E & L)].
  - assert (time.nsec t1 / 10000000 < 100) by (apply N.Div0.div_lt_upper_bound; lia).
    generalize dependent (time.nsec t1 / 10000000).
    generalize (time.nsec t2 / 10000000). intros. lia.
  - rewrite E. apply N.add_le_mono_l, N.Div0.div_le_mono. lia.
Qed.

Lemma ltb_compare (a b : string) : String.ltb a b = true <-> String.compare a b = Lt.
Proof.
  unfold String.ltb. destruct (String.compare a b); split; congruence.
Qed.

Lemma leb_compare (a b : string) : String.leb a b = true <-> String.compare a b <> Gt.
Proof.
  unfold String.leb. destruct (String.compare a b); split; congruence.
Qed.

(** C7, against the claim: two instants of one day, the second a
    nanosecond later, get the same label, not a greater one; in server.go
    the same holds of two instants of one second. *)
Lemma later_instant_same_label :
  ~ (forall t1 t2,
        Clock.wf t1 -> Clock.wf t2 -> Clock.sameDay t1 t2 -> Clock.later t1 t2 ->
        String.ltb (Arg1 (Part000.timeLabel t1)) (Arg1 (Part000.timeLabel t2)) = true)
  /\ ~ (forall t1 t2,
        Clock.wf t1 -> Clock.wf t2 -> Clock.sameDay t1 t2 -> Clock.later t1 t2 ->
        String.ltb (Arg1 (ServerGo.timeLabel t1)) (Arg1 (ServerGo.timeLabel t2)) = true).
Proof.
  split; intros H;
    specialize (H (time.mkTime 0 0) (time.mkTime 0 1));
    discriminate H; try reflexivity; right; split; reflexivity.
Qed.

(** C7, amended.  For every instant the arg1 of the label is the clock
    string of that instant: it reads back as its hour, minute and second
    (and, in part_000, the hundredths of its second, cut not rounded), and
    has 11 characters in part_000 and 8 in server.go.  For two instants of
    one day, the second later, the arg1 of the later one is never lexically
    smaller; it is lexically greater exactly when the two instants lie in
    different hundredths of a second (part_000), in different seconds
    (server.go). *)
Theorem time_label_order :
  (forall t,
      Clock.wf t ->
      Clock.read (Arg1 (Part000.timeLabel t))
      = Some (Clock.mkShown (time.Hour t) (time.Minute t) (time.Second t)
                            (Some (time.nsec t / 10000000)))
      /\ String.length (Arg1 (Part000.timeLabel t)) = 11%nat
      /\ Clock.read (Arg1 (ServerGo.timeLabel t))
         = Some (Clock.mkShown (time.Hour t) (time.Minute t) (time.Second t) None)
      /\ String.length (Arg1 (ServerGo.timeLabel t)) = 8%nat
      /\ time.Hour t < 24 /\ time.Minute t < 60 /\ time.Second t < 60)
  /\ (forall t1 t2,
        Clock.wf t1 -> Clock.wf t2 -> Clock.sameDay t1 t2 -> Clock.later t1 t2 ->
        String.leb (Arg1 (Part000.timeLabel t1)) (Arg1 (Part000.timeLabel t2)) = true
        /\ (String.ltb (Arg1 (Part000.timeLabel t1)) (Arg1 (Part000.timeLabel t2)) = true
            <-> Clock.hundredth t1 < Clock.hundredth t2)
        /\ String.leb (Arg1 (ServerGo.timeLabel t1)) (Arg1 (ServerGo.timeLabel t2)) = true
        /\ (String.ltb (Arg1 (ServerGo.timeLabel t1)) (Arg1 (ServerGo.timeLabel t2)) = true
            <-> time.abs t1 < time.abs t2)).
Proof.
  split.
  - intros t W. cbn [Arg1 Part000.timeLabel ServerGo.timeLabel].
    split; [apply read_hundredths, W |]. split; [reflexivity |].
    split; [apply read_seconds |]. split; [reflexivity |].
    apply clock_split.
  - intros t1 t2 W1 W2 D L. cbn [Arg1 Part000.timeLabel ServerGo.timeLabel].
    rewrite !leb_compare, !ltb_compare.
    rewrite (compare_hundredths t1 t2 W1 W2 D), (compare_seconds t1 t2 D).
    pose proof (later_hundredth t1 t2 W1 L) as Hh.
    assert (time.abs t1 <= time.abs t2) as Ha
      by (destruct L as [L | (E & _)]; lia).
    rewrite !N.compare_lt_iff.
    repeat split; try tauto.
    + intros G. apply N.compare_gt_iff in G. lia.
    + intros G. apply N.compare_gt_iff in G. lia.
Qed.

Lemma time_label_order_witness :
  String.ltb (Arg1 (Part000.timeLabel (time.mkTime 86399 989999999)))
             (Arg1 (Part000.timeLabel (time.mkTime 86399 990000000))) = true.
Proof.
  destruct (proj2 time_label_order (time.mkTime 86399 989999999)
              (time.mkTime 86399 990000000)) as (_ & H & _).
  - reflexivity.
  - reflexivity.
  - reflexivity.
  - right. split; reflexivity.
  - apply H. reflexivity.
Defined.

End ClockFacts.

(** ** The process *)

Lemma Inv_same (w w' : World) :
  conn w' = conn w -> connMu w' = connMu w -> open w' = open w -> next w' = next w ->
  Inv w -> Inv w'.
Proof.
  unfold Inv. intros -> -> -> ->. trivial.
Qed.

Lemma deliver_running (Decode : Decoder) (w : World) (e : Part000.Event) :
  Inv w ->
  exists w' r,
    Part000.deliver Decode (Part000.Running true w) e = (Part000.Running true w', r)
    /\ Inv w'.
Proof.
  intros H. destruct e as [now env | body | body |]; cbn [Part000.deliver].
  - destruct (tick_spec now env) as (b & _ & ->).
    rewrite send_spec by assumption.
    do 2 eexists. split; [reflexivity | apply Inv_afterSend, H].
  - destruct (button_answers Decode body w)
      as (rw & w' & -> & _ & E1 & _ & E2 & E3 & E4 & _).
    do 2 eexists. split; [reflexivity | exact (Inv_same w w' E1 E2 E3 E4 H)].
  - destruct (slider_answers Decode body w)
      as (rw & w' & -> & _ & E1 & _ & E2 & E3 & E4 & _).
    do 2 eexists. split; [reflexivity | exact (Inv_same w w' E1 E2 E3 E4 H)].
  - do 2 eexists. split; [reflexivity | exact H].
Qed.

Lemma run_running (Decode : Decoder) (es : list Part000.Event) :
  forall w, Inv w ->
  exists w', Part000.run Decode (Part000.Running true w) es = Part000.Running true w'
             /\ Inv w'.
Proof.
  induction es as [| e es IH]; intros w H.
  - exists w. split; [reflexivity | exact H].
  - destruct (deliver_running Decode w e H) as (w1 & r & E & H1).
    cbn [Part000.run fold_left]. rewrite E. cbn [fst]. apply IH, H1.
Qed.

Lemma server_go_exited (Decode : Decoder) (es : list ServerGo.Event) (w : World) :
  ServerGo.run Decode (ServerGo.Exited w) es = ServerGo.Exited w.
Proof.
  induction es as [| e es IH]; [reflexivity | exact IH].
Qed.

(** C4, against the claim: server.go dials in [main], and when that dial
    fails [main] prints the error and returns.  The process has ended
    before it serves; no event reaches it. *)
Lemma server_go_dial_failure_ends_process :
  ServerGo.main (Some "connection refused") None initial
  = ServerGo.Exited
      (mkWorld None None false [] 0 1 []
         [Println ["Error connecting to client:"; "connection refused"]])
  /\ forall es,
       exists w,
         ServerGo.run Example.Decode
           (ServerGo.main (Some "connection refused") None initial) es
         = ServerGo.Exited w.
Proof.
  split; [reflexivity |].
  intros es. eexists. apply server_go_exited.
Qed.

(** C4, amended.  In part_000, once [main] serves, the process keeps
    serving with its ticker ticking through every sequence of ticks and
    requests, whatever the dials and writes answer and whatever the bodies
    are; a tick whose dial fails prints the failure, sends nothing, leaves
    the connection nil and returns; every request gets an answer.  In
    server.go the one dial is made by [main], and its failure is printed
    and ends the process.  In both programs a failure of the HTTP listener
    is printed and ends the process. *)
Theorem dial_failure_is_survived_by_part000 :
  (forall (Decode : Decoder) es,
      exists w,
        Part000.run Decode (Part000.main None initial) es = Part000.Running true w
        /\ Inv w)
  /\ (forall (Decode : Decoder) w now env e,
        Inv w -> conn w = None -> dial env = Some e ->
        exists w',
          Part000.deliver Decode (Part000.Running true w) (Part000.Tick now env)
          = (Part000.Running true w', None)
          /\ stdout w' = Println ["Error connecting to client:"; e]
                         :: noConnection :: stdout w
          /\ conn w' = None /\ open w' = [] /\ wire w' = wire w
          /\ dials w' = S (dials w))
  /\ (forall (Decode : Decoder) ticking w body,
        (exists w' rw,
            Part000.deliver Decode (Part000.Running ticking w) (Part000.Button body)
            = (Part000.Running ticking w', Some rw))
        /\ (exists w' rw,
              Part000.deliver Decode (Part000.Running ticking w) (Part000.Slider body)
              = (Part000.Running ticking w', Some rw))
        /\ (exists w' rw,
              Part000.deliver Decode (Part000.Running ticking w) Part000.Test
              = (Part000.Running ticking w', Some rw)))
  /\ (forall e listen w,
        exists w',
          ServerGo.main (Some e) listen w = ServerGo.Exited w'
          /\ stdout w' = Println ["Error connecting to client:"; e] :: stdout w
          /\ open w' = open w /\ wire w' = wire w)
  /\ (forall e w,
        (exists w', Part000.main (Some e) w = Part000.Exited w'
                    /\ hd_error (stdout w') = Some (Println ["Error starting server:"; e]))
        /\ (exists w', ServerGo.main None (Some e) w = ServerGo.Exited w'
                       /\ hd_error (stdout w') = Some (Println ["Error starting server:"; e]))).
Proof.
  split; [| split; [| split; [| split]]].
  - intros Decode es. apply run_running. repeat split.
  - intros Decode w now env e HI Hc Hd. cbn [Part000.deliver].
    destruct (tick_spec now env) as (b & _ & ->).
    rewrite send_spec by assumption.
    eexists. split; [reflexivity |].
    unfold afterSend, acquired. rewrite Hc, Hd. repeat split.
  - intros Decode ticking w body. cbn [Part000.deliver]. split; [| split].
    + destruct (button_answers Decode body w) as (rw & w' & -> & _).
      exists w', rw. reflexivity.
    + destruct (slider_answers Decode body w) as (rw & w' & -> & _).
      exists w', rw. reflexivity.
    + do 2 eexists. reflexivity.
  - intros e listen w. eexists. split; [reflexivity |]. repeat split.
  - intros e w. split.
    + eexists. split; reflexivity.
    + eexists. unfold ServerGo.main. cbn. rewrite Nat.eqb_refl. cbn.
      split; reflexivity.
Qed.

Lemma dial_failure_is_survived_by_part000_witness :
  exists w',
    Part000.deliver Example.Decode (Part000.Running true initial)
      (Part000.Tick (time.mkTime 0 0) (mkEnv (Some "connection refused") None))
    = (Part000.Running true w', None)
    /\ conn w' = None /\ wire w' = [] /\ dials w' = 1.
Proof.
  destruct (proj1 (proj2 dial_failure_is_survived_by_part000) Example.Decode initial
              (time.mkTime 0 0) (mkEnv (Some "connection refused") None)
              "connection refused")
    as (w' & E & _ & Hc & _ & Hw & Hd).
  - apply Inv_initial.
  - reflexivity.
  - reflexivity.
  - exists w'. repeat split; assumption.
Defined.

(** ** Goroutines of part_000 *)

Lemma step_preserves (g : Part000.Goroutine) (w : World) :
  Inv w -> Inv (snd (Part000.step g w)).
Proof.
  intros H. destruct g as [env data | c req answer | | |]; cbn [Part000.step].
  - rewrite getConn_spec by assumption. unfold Part000.after.
    pose proof (Inv_acquired (dial env) w H) as H1.
    destruct (conn w), (dial env); cbn;
      first [exact H1 | apply Inv_add_stdout, H1].
  - destruct c as [f |]; cbn; [| exact H].
    destruct (if existsb (Nat.eqb f) (open w) then answer else Some errClosed); cbn.
    + apply Inv_add_stdout, Inv_add_wire, H.
    + apply Inv_add_wire, H.
  - rewrite closeConn_spec by assumption. cbn. apply Inv_closed, H.
  - exact H.
  - exact H.
Qed.

Lemma resume_preserves (gs : list Part000.Goroutine) :
  forall i w, Inv w -> Inv (snd (Part000.resume i gs w)).
Proof.
  induction gs as [| g gs IH]; intros i w H; [destruct i; exact H |].
  destruct i as [| j]; cbn [Part000.resume].
  - pose proof (step_preserves g w H) as H1.
    destruct (Part000.step g w). exact H1.
  - pose proof (IH j w H) as H1.
    destruct (Part000.resume j gs w). exact H1.
Qed.

Lemma schedule_preserves (cs : list Part000.Choice) :
  forall s, Inv (snd s) -> Inv (snd (Part000.schedule cs s)).
Proof.
  induction cs as [| c cs IH]; intros s H; [exact H |].
  cbn [Part000.schedule fold_left]. apply IH.
  destruct c as [env data | i]; cbn [Part000.schedule1 snd]; [exact H |].
  apply resume_preserves, H.
Qed.

(** However many goroutines are inside [sendToProcessor], and however the
    scheduler interleaves their stretches ([getConn], the write,
    [closeConn]), at most one socket is open at any moment, and it is the
    shared connection. *)
Theorem goroutines_one_connection (cs : list Part000.Choice) :
  OneConnection (snd (Part000.schedule cs ([], initial))).
Proof.
  apply Inv_one, schedule_preserves, Inv_initial.
Qed.

(** A goroutine that runs its three stretches without another one in
    between does what [sendToProcessor] does as one call. *)
Theorem stretches_make_sendToProcessor (env : Env) (data : option string) (w : World) :
  Inv w ->
  let s1 := Part000.step (Part000.AtGetConn env data) w in
  let s2 := Part000.step (fst s1) (snd s1) in
  let s3 := Part000.step (fst s2) (snd s2) in
  fst s3 = Part000.Finished
  /\ Part000.sendToProcessor env data w = (Return tt, snd s3).
Proof.
  intros H. rewrite send_spec by assumption. cbn zeta.
  cbn [Part000.step]. rewrite getConn_spec by assumption.
  unfold afterSend. pose proof (Inv_acquired (dial env) w H) as H1.
  revert H1. unfold acquired.
  destruct (conn w) as [c |] eqn:Ec.
  - intros H1. rewrite Ec. cbn -[Part000.closeConn written].
    destruct H as (_ & Ho & _). rewrite Ec in Ho. rewrite Ho.
    cbn [existsb]. rewrite Nat.eqb_refl. cbn [orb].
    unfold written. destruct (write env) as [e |]; cbn -[Part000.closeConn].
    + rewrite closeConn_spec by (apply Inv_add_stdout, Inv_add_wire, H1).
      cbn. unfold closed. cbn [conn add_stdout add_wire]. rewrite Ec.
      split; reflexivity.
    + split; reflexivity.
  - destruct (dial env) as [e |]; intros H1; [split; reflexivity |].
    cbn -[Part000.closeConn written].
    rewrite Nat.eqb_refl. cbn [orb].
    unfold written. destruct (write env) as [e |]; cbn -[Part000.closeConn].
    + rewrite closeConn_spec by (apply Inv_add_stdout, Inv_add_wire, H1).
      split; reflexivity.
    + split; reflexivity.
Qed.

Lemma stretches_make_sendToProcessor_witness :
  Part000.sendToProcessor (mkEnv None (Some "broken pipe")) (Some "x") initial
  = (Return tt,
     snd (Part000.step Part000.AtCloseConn
            (snd (Part000.step
                    (Part000.AtWrite (Some 0) (postRequest (Some "x")) (Some "broken pipe"))
                    (dialled initial))))).
Proof.
  apply (stretches_make_sendToProcessor (mkEnv None (Some "broken pipe")) (Some "x") initial).
  apply Inv_initial.
Defined.

(** From every state at rest, the three operations of part_000 are the
    transitions of the two-state machine: [getConn] is AcquireConnection,
    [closeConn] is Close, [sendToProcessor] is Send; each returns, and
    leaves a state at rest. *)
Theorem manager_refines_machine (w : World) :
  Inv w ->
  (forall answer,
      Part000.getConn answer w
      = (Return match conn w, answer with
                | None, Some e => (None, Some e)
                | _, _ => (conn (acquired answer w), None)
                end,
         acquired answer w)
      /\ Inv (acquired answer w))
  /\ (Part000.closeConn w = (Return tt, closed w) /\ Inv (closed w))
  /\ (forall env data,
        Part000.sendToProcessor env data w = (Return tt, afterSend env data w)
        /\ Inv (afterSend env data w)).
Proof.
  intros H. split; [| split].
  - intros answer. split; [apply getConn_spec, H | apply Inv_acquired, H].
  - split; [apply closeConn_spec, H | apply Inv_closed, H].
  - intros env data. split; [apply send_spec, H | apply Inv_afterSend, H].
Qed.

Lemma manager_refines_machine_witness :
  Part000.getConn None initial = (Return (Some 0, None), dialled initial)
  /\ Inv (dialled initial).
Proof.
  apply (proj1 (manager_refines_machine initial Inv_initial) None).
Defined.

(** ** The process of server.go *)

Lemma server_go_deliver (Decode : Decoder) (c : fd) (w : World) (e : ServerGo.Event) :
  In c (open w) ->
  exists w' r,
    ServerGo.deliver Decode (ServerGo.Running (Some c) w) e
    = (ServerGo.Running (Some c) w', r)
    /\ open w' = open w /\ dials w' = dials w.
Proof.
  intros H. destruct e as [now answer | body | body |]; cbn [ServerGo.deliver].
  - destruct (server_tick_spec now) as (b & _ & E). rewrite E.
    destruct (serverTick_effect c (Some b) answer w H) as (Eo & Ed & _).
    do 2 eexists. split; [reflexivity |]. split; assumption.
  - change (ServerGo.replyButtonHandler Decode http.newWriter body w)
      with (Part000.replyButtonHandler Decode http.newWriter body w).
    destruct (button_answers Decode body w)
      as (rw & w' & -> & _ & _ & _ & _ & Eo & _ & Ed & _).
    do 2 eexists. split; [reflexivity |]. split; assumption.
  - change (ServerGo.replySliderHandler Decode http.newWriter body w)
      with (Part000.replySliderHandler Decode http.newWriter body w).
    destruct (slider_answers Decode body w)
      as (rw & w' & -> & _ & _ & _ & _ & Eo & _ & Ed & _).
    do 2 eexists. split; [reflexivity |]. split; assumption.
  - do 2 eexists. split; [reflexivity |]. split; reflexivity.
Qed.

Lemma server_go_run (Decode : Decoder) (c : fd) (es : list ServerGo.Event) :
  forall w,
    In c (open w) ->
    exists w',
      ServerGo.run Decode (ServerGo.Running (Some c) w) es = ServerGo.Running (Some c) w'
      /\ open w' = open w /\ dials w' = dials w.
Proof.
  induction es as [| e es IH]; intros w H.
  - exists w. repeat split.
  - destruct (server_go_deliver Decode c w e H) as (w1 & r & E & Eo & Ed).
    unfold ServerGo.run. cbn [fold_left]. rewrite E. cbn [fst].
    destruct (IH w1) as (w' & E' & Eo' & Ed'); [rewrite Eo; exact H |].
    exists w'. split; [exact E' |]. split; congruence.
Qed.

(** Once server.go serves, it serves on through every sequence of ticks
    and requests with the socket [main] dialled, open, and that dial the
    only one: nothing closes the connection and nothing dials again,
    whatever the writes answer. *)
Theorem server_go_keeps_its_connection (Decode : Decoder) (es : list ServerGo.Event) :
  exists w,
    ServerGo.run Decode (ServerGo.main None None initial) es
    = ServerGo.Running (Some 0) w
    /\ open w = [0] /\ dials w = 1.
Proof.
  destruct (server_go_run Decode 0 es
              (add_stdout (Println ["Starting server at"; ServerGo.ServerAddr])
                 (mkWorld None None false [0] 1 1 [] [])))
    as (w & E & Eo & Ed).
  - left. reflexivity.
  - exists w. split; [exact E |]. split; assumption.
Qed.

(** ** The end-to-end examples *)

Example button_end_to_end :
  fst (Part000.replyButtonHandler Example.Decode http.newWriter
         (Wire.event "Btn_1" "press" "0") initial)
  = Return (jsonReply (Wire.command "Button" "Btn_1" "SetState" "1")).
Proof. reflexivity. Qed.

Example excluded_button_end_to_end :
  Part000.replyButtonHandler Example.Decode http.newWriter
    (Wire.event "Btn_NoTog" "press" "0") initial
  = (Return (jsonReply ""),
     add_stdout (PrintRx (mkRx "Btn_NoTog" "press" "0")) initial).
Proof. reflexivity. Qed.

Example slider_end_to_end :
  fst (Part000.replySliderHandler Example.Decode http.newWriter
         (Wire.event "Sld_1" "change" "42") initial)
  = Return (jsonReply (Wire.command "Slider" "Sld_1" "SetFill" "42")).
Proof. reflexivity. Qed.

Example test_end_to_end :
  Part000.replyTestHandler http.newWriter initial
  = (Return (http.mkWriter [] (Some 200) "OK"), initial).
Proof. reflexivity. Qed.

(** ** Further properties of the handlers *)

Lemma excluded_name (name : string) :
  In name Part000.dontToggleButtons <-> name = "Btn_NoTog".
Proof.
  cbn. split; [intros [H | []]; congruence | intros ->; left; reflexivity].
Qed.

(** For every body that decodes, the button handler of both programs
    prints the event and answers 200 with the JSON content type: with an
    empty body when the name is exactly Btn_NoTog (the comparison is by
    bytes, so another spelling is toggled), and otherwise with the
    marshalled Button/SetState command, which it prints too; when the name
    needs no escape that body is the JSON text with the name as it is. *)
Theorem button_handler_answers (Decode : Decoder) (body : string) (rx : Rx) (w : World) :
  Decode body = inl rx ->
  let logged := add_stdout (PrintRx rx) w in
  let cmd := mkResponse "Button" (Name rx) "SetState"
                        (if String.eqb (Value rx) "0" then "1" else "0") "" "" in
  ServerGo.replyButtonHandler Decode http.newWriter body w
  = Part000.replyButtonHandler Decode http.newWriter body w
  /\ (Name rx = "Btn_NoTog" ->
      Part000.replyButtonHandler Decode http.newWriter body w
      = (Return (jsonReply ""), logged))
  /\ (Name rx <> "Btn_NoTog" ->
      exists b,
        json.Marshal cmd = (Some b, None)
        /\ Part000.replyButtonHandler Decode http.newWriter body w
           = (Return (jsonReply b), add_stdout (PrintResponse cmd) logged)
        /\ (Wire.plain (Name rx) = true ->
            b = Wire.command "Button" (Name rx) "SetState" (Arg1 cmd))).
Proof.
  intros H logged cmd. split; [reflexivity |].
  unfold Part000.replyButtonHandler. rewrite H. unfold bind, fmt_Print, modify.
  split.
  - intros E. apply excluded_name in E.
    rewrite (toggle_excluded rx _ E). reflexivity.
  - intros N. assert (~ In (Name rx) Part000.dontToggleButtons) as N'
      by (rewrite excluded_name; exact N).
    rewrite (toggle_command rx _ N'). fold cmd.
    destruct (Marshal_ok cmd) as (b & Eb). exists b.
    split; [exact Eb |]. rewrite Eb. split; [reflexivity |].
    intros Hp. unfold cmd in Eb. rewrite Marshal_plain in Eb.
    + unfold cmd. cbn [Arg1]. congruence.
    + reflexivity.
    + exact Hp.
    + reflexivity.
    + destruct (String.eqb (Value rx) "0"); reflexivity.
Qed.

Lemma button_handler_answers_witness :
  Part000.replyButtonHandler Example.Decode http.newWriter
    (Wire.event "Btn_NoTog" "press" "1") initial
  = (Return (jsonReply ""), add_stdout (PrintRx (mkRx "Btn_NoTog" "press" "1")) initial).
Proof.
  apply (proj1 (proj2 (button_handler_answers Example.Decode
                         (Wire.event "Btn_NoTog" "press" "1")
                         (mkRx "Btn_NoTog" "press" "1") initial eq_refl))).
  reflexivity.
Defined.

(** No request reaches the processor: whatever the body, the button and
    the slider handler of both programs return an answer and leave the
    shared connection, the mutex, the open sockets, the dial count and
    everything written on the wire as they were (only stdout grows); the
    test handler answers 200 OK with no header and changes nothing. *)
Theorem handlers_leave_transport_alone (Decode : Decoder) (body : string) (w : World) :
  let untouched (r : Outcome http.ResponseWriter * World) :=
    exists rw w',
      r = (Return rw, w')
      /\ conn w' = conn w /\ connErr w' = connErr w /\ connMu w' = connMu w
      /\ open w' = open w /\ next w' = next w /\ dials w' = dials w
      /\ wire w' = wire w in
  untouched (Part000.replyButtonHandler Decode http.newWriter body w)
  /\ untouched (Part000.replySliderHandler Decode http.newWriter body w)
  /\ untouched (ServerGo.replyButtonHandler Decode http.newWriter body w)
  /\ untouched (ServerGo.replySliderHandler Decode http.newWriter body w)
  /\ Part000.replyTestHandler http.newWriter w
     = (Return (http.mkWriter [] (Some 200) "OK"), w)
  /\ ServerGo.replyTestHandler http.newWriter w
     = (Return (http.mkWriter [] (Some 200) "OK"), w).
Proof.
  intros untouched. unfold untouched.
  assert (forall r, (exists rw w', r = (Return rw, w')
            /\ (rw = invalidJSON \/ exists b, rw = jsonReply b)
            /\ conn w' = conn w /\ connErr w' = connErr w /\ connMu w' = connMu w
            /\ open w' = open w /\ next w' = next w /\ dials w' = dials w
            /\ wire w' = wire w) ->
          exists rw w', r = (Return rw, w')
            /\ conn w' = conn w /\ connErr w' = connErr w /\ connMu w' = connMu w
            /\ open w' = open w /\ next w' = next w /\ dials w' = dials w
            /\ wire w' = wire w) as drop.
  { intros r (rw & w' & E & _ & R). exists rw, w'. split; assumption. }
  repeat split.
  - apply drop, button_answers.
  - apply drop, slider_answers.
  - apply drop, (button_answers Decode body w).
  - apply drop, (slider_answers Decode body w).
Qed.

(** A button that is not excluded alternates: whatever value the first
    event carries, the state sent back is 0 or 1; an event carrying that
    state gets the other one, and an event carrying the other one gets the
    first again.  If the first value is itself 0 or 1, the second answer
    is that value. *)
Theorem toggle_alternates (name action v : string) (w : World) :
  name <> "Btn_NoTog" ->
  let press x := Part000.btnVisStateToggle (mkRx name action x) w in
  let reply s :=
    (Return (json.Marshal (mkResponse "Button" name "SetState" s "" "")),
     add_stdout (PrintResponse (mkResponse "Button" name "SetState" s "" "")) w) in
  exists s1 s2,
    press v = reply s1 /\ press s1 = reply s2 /\ press s2 = reply s1
    /\ (s1 = "0" \/ s1 = "1") /\ s1 <> s2
    /\ (v = "0" \/ v = "1" -> s2 = v).
Proof.
  intros N press reply.
  assert (forall x, press x = reply (if String.eqb x "0" then "1" else "0")) as P.
  { intros x. unfold press. rewrite toggle_command; [reflexivity |].
    cbn [Name]. rewrite excluded_name. exact N. }
  destruct (String.eqb_spec v "0") as [-> | Hv].
  - exists "1", "0". rewrite !P. cbn. repeat split; auto; discriminate.
  - exists "0", "1". rewrite !P. cbn. destruct (String.eqb_spec v "0"); [contradiction |].
    repeat split; auto; try discriminate.
    intros [-> | ->]; [contradiction | reflexivity].
Qed.

Lemma toggle_alternates_witness :
  exists s1 s2,
    Part000.btnVisStateToggle (mkRx "Btn_1" "press" "1") initial
    = (Return (json.Marshal (mkResponse "Button" "Btn_1" "SetState" s1 "" "")),
       add_stdout (PrintResponse (mkResponse "Button" "Btn_1" "SetState" s1 "" "")) initial)
    /\ s1 <> s2 /\ s2 = "1".
Proof.
  destruct (toggle_alternates "Btn_1" "press" "1" initial)
    as (s1 & s2 & E1 & _ & _ & _ & D & V).
  - discriminate.
  - exists s1, s2. split; [exact E1 |]. split; [exact D |]. apply V. right. reflexivity.
Defined.

(** ** Further properties of the connection manager *)

(** [closeConn] returns with the shared connection nil and no socket
    open, without a dial, a write or a line on stdout; on a state without
    a connection it changes nothing, so a second [closeConn] changes
    nothing.  After it has closed the connection [c], a [getConn] whose
    dial connects returns a socket other than [c], the only one open. *)
Theorem closeConn_is_idempotent (w : World) :
  Inv w ->
  exists w1,
    Part000.closeConn w = (Return tt, w1)
    /\ conn w1 = None /\ open w1 = []
    /\ dials w1 = dials w /\ wire w1 = wire w /\ stdout w1 = stdout w
    /\ Part000.closeConn w1 = (Return tt, w1)
    /\ (conn w = None -> w1 = w)
    /\ forall c, conn w = Some c ->
         exists c' w2,
           Part000.getConn None w1 = (Return (Some c', None), w2)
           /\ c' <> c /\ open w2 = [c'] /\ dials w2 = S (dials w).
Proof.
  intros H. pose proof (Inv_rest w H) as R.
  exists (closed w). split; [apply closeConn_rest, R |].
  assert (AtRest (closed w)) as R1 by (apply rest_closed, R).
  assert (conn (closed w) = None) as Ec
    by (unfold closed; destruct (conn w) eqn:E; [reflexivity | exact E]).
  split; [exact Ec |].
  split; [unfold closed; destruct (conn w) eqn:E;
          [reflexivity | destruct R as (_ & Ho); rewrite E in Ho; exact Ho] |].
  split; [unfold closed; destruct (conn w); reflexivity |].
  split; [unfold closed; destruct (conn w); reflexivity |].
  split; [unfold closed; destruct (conn w); reflexivity |].
  split.
  { rewrite closeConn_rest by exact R1. unfold closed at 1. rewrite Ec. reflexivity. }
  split; [intros E; unfold closed; rewrite E; reflexivity |].
  intros c E. exists (next w), (dialled (closed w)).
  rewrite getConn_rest by exact R1. unfold acquired. rewrite Ec.
  unfold closed. rewrite E. cbn.
  split; [reflexivity |].
  destruct H as (_ & _ & Hlt). rewrite E in Hlt.
  split; [lia |]. split; reflexivity.
Qed.

Lemma closeConn_is_idempotent_witness :
  exists w1,
    Part000.closeConn (dialled initial) = (Return tt, w1)
    /\ conn w1 = None /\ open w1 = []
    /\ Part000.closeConn w1 = (Return tt, w1).
Proof.
  destruct (closeConn_is_idempotent (dialled initial))
    as (w1 & E & Hc & Ho & _ & _ & _ & E2 & _).
  - repeat split. cbn. lia.
  - exists w1. repeat split; assumption.
Defined.

(** [getConn] from a state at rest returns with the mutex released and
    nothing written, and dials once exactly when there is no connection.
    It returns either a connection that is not nil with a nil error, and
    then that connection is the shared one and the only open socket, or a
    nil connection with the error of the dial it has just made, which
    [connErr] keeps: it never returns nil with a nil error. *)
Theorem getConn_contract (answer : option error) (w : World) :
  AtRest w ->
  exists r w',
    Part000.getConn answer w = (Return r, w')
    /\ wire w' = wire w /\ connMu w' = false
    /\ dials w' = dials w + (match conn w with Some _ => 0 | None => 1 end)
    /\ ((exists c, r = (Some c, None) /\ conn w' = Some c /\ open w' = [c]
                   /\ connErr w' = match conn w with Some _ => connErr w | None => None end
                   /\ (conn w = Some c \/ (conn w = None /\ answer = None)))
        \/ (exists e, r = (None, Some e) /\ answer = Some e /\ conn w = None
                      /\ conn w' = None /\ connErr w' = Some e /\ open w' = [])).
Proof.
  intros R. do 2 eexists. split; [apply getConn_rest, R |].
  destruct R as (Hm & Ho). unfold acquired.
  destruct (conn w) as [c |] eqn:E.
  - rewrite E. repeat split; try assumption; try lia.
    left. exists c. repeat split; auto. 
  - destruct answer as [e |]; cbn.
    + repeat split; try lia. right. exists e. repeat split.
    + repeat split; try lia. left. exists (next w). repeat split. right. split; reflexivity.
Qed.

Lemma getConn_contract_witness :
  exists r w',
    Part000.getConn (Some "connection refused") initial = (Return r, w')
    /\ wire w' = [] /\ connMu w' = false /\ dials w' = 1.
Proof.
  destruct (getConn_contract (Some "connection refused") initial)
    as (r & w' & E & Hw & Hm & Hd & _).
  - split; reflexivity.
  - exists r, w'. repeat split; assumption.
Defined.

(** One [sendToProcessor] is one attempt: from a state at rest it returns
    to a state at rest, dials once exactly when there is no connection, and
    writes once exactly when it holds a connection (the shared one, or the
    one it has dialled), on that connection, with the answer of the peer
    as the result.  When its dial fails it writes nothing; when its write
    fails it does not write again. *)
Theorem send_makes_one_attempt (env : Env) (data : option string) (w : World) :
  AtRest w ->
  exists w',
    Part000.sendToProcessor env data w = (Return tt, w')
    /\ AtRest w'
    /\ dials w' = dials w + (match conn w with Some _ => 0 | None => 1 end)
    /\ (forall e, conn w = None -> dial env = Some e ->
          wire w' = wire w /\ conn w' = None)
    /\ (forall c,
          conn w = Some c \/ (conn w = None /\ dial env = None /\ c = next w) ->
          wire w' = mkWritten c (postRequest data) (write env) :: wire w
          /\ conn w' = match write env with None => Some c | Some _ => None end).
Proof.
  intros R. exists (afterSend env data w). split; [apply send_rest, R |].
  split; [apply rest_afterSend, R |].
  destruct R as (Hm & Ho). unfold afterSend, acquired. split; [| split].
  - destruct (conn w) as [c |] eqn:E.
    + cbn [conn]. rewrite E. unfold written. destruct (write env); cbn; lia.
    + destruct (dial env); cbn; [lia |]. unfold written. destruct (write env); cbn; lia.
  - intros e Hc Hd. rewrite Hc, Hd. cbn. split; reflexivity.
  - intros c [Hc | (Hc & Hd & ->)].
    + rewrite Hc. cbn [conn]. rewrite Hc. unfold written.
      destruct (write env); cbn; rewrite ?Hc; split; reflexivity.
    + rewrite Hc, Hd. cbn [conn dialled]. unfold written.
      destruct (write env); cbn; split; reflexivity.
Qed.

Lemma send_makes_one_attempt_witness :
  exists w',
    Part000.sendToProcessor (mkEnv (Some "connection refused") None) (Some "x") initial
    = (Return tt, w')
    /\ dials w' = 1 /\ wire w' = [] /\ conn w' = None.
Proof.
  destruct (send_makes_one_attempt (mkEnv (Some "connection refused") None) (Some "x") initial)
    as (w' & E & _ & Hd & Hf & _).
  - split; reflexivity.
  - destruct (Hf "connection refused" eq_refl eq_refl) as (Hw & Hc).
    exists w'. repeat split; assumption.
Defined.

(** ** The frames of the ticker *)

Lemma plain_append (s1 s2 : string) :
  Wire.plain (s1 ++ s2) = Wire.plain s1 && Wire.plain s2.
Proof.
  unfold Wire.plain. induction s1 as [| c s1 IH]; [reflexivity |].
  cbn [append list_ascii_of_string forallb]. rewrite IH. apply andb_assoc.
Qed.

Lemma plain_digit (d : N) : (d < 10)%N -> json.htmlSafe (time.digit d) = true.
Proof.
  intros H.
  assert (d = 0 \/ d = 1 \/ d = 2 \/ d = 3 \/ d = 4 \/ d = 5 \/ d = 6 \/ d = 7
          \/ d = 8 \/ d = 9)%N as C by lia.
  repeat (destruct C as [-> | C]; [reflexivity |]). subst. reflexivity.
Qed.

Lemma plain_digits (k : nat) (x : N) : Wire.plain (time.digits k x) = true.
Proof.
  unfold Wire.plain. induction k as [| k IH]; [reflexivity |].
  cbn [time.digits list_ascii_of_string forallb].
  rewrite plain_digit by (apply N.mod_lt; lia). exact IH.
Qed.

Lemma plain_cons (c : ascii) (s : string) :
  Wire.plain (String c s) = json.htmlSafe c && Wire.plain s.
Proof. reflexivity. Qed.

Lemma plain_clock (t : time.Time) :
  Wire.plain (time.Format time.layout_15_04_05_00 t) = true
  /\ Wire.plain (time.Format time.layout_15_04_05 t) = true.
Proof.
  rewrite Format_hundredths, Format_seconds.
  repeat (rewrite plain_append || rewrite plain_digits || rewrite plain_cons).
  split; reflexivity.
Qed.

Lemma label_bytes (t : time.Time) :
  json.Marshal (Part000.timeLabel t)
  = (Some (labelText (time.Format time.layout_15_04_05_00 t)), None)
  /\ json.Marshal (ServerGo.timeLabel t)
     = (Some (labelText (time.Format time.layout_15_04_05 t)), None).
Proof.
  destruct (plain_clock t) as (P1 & P2).
  split; apply Marshal_plain; reflexivity || assumption.
Qed.

(** The bytes of every tick are the label command as JSON text, with the
    clock string of the tick inside, as it is: the ticker of part_000 hands
    them to [sendToProcessor], the one of server.go writes them on its
    connection, and prints a line if the write fails. *)
Theorem tick_frame (t : time.Time) :
  json.Marshal (Part000.timeLabel t)
  = (Some (labelText (time.Format time.layout_15_04_05_00 t)), None)
  /\ json.Marshal (ServerGo.timeLabel t)
     = (Some (labelText (time.Format time.layout_15_04_05 t)), None)
  /\ (forall env w,
        Part000.sendTestSetLabel t env w
        = Part000.sendToProcessor env
            (Some (labelText (time.Format time.layout_15_04_05_00 t))) w)
  /\ (forall c answer w,
        In c (open w) ->
        ServerGo.sendTestSetLabel (Some c) t answer w
        = (Return tt,
           let w' := add_wire
                       (mkWritten c
                          (postRequest
                             (Some (labelText (time.Format time.layout_15_04_05 t))))
                          answer) w in
           match answer with
           | None => w'
           | Some e => add_stdout (Println ["Error sending HTTP request:"; e]) w'
           end)).
Proof.
  destruct (label_bytes t) as (E1 & E2).
  split; [exact E1 |]. split; [exact E2 |]. split.
  - intros env w. unfold Part000.sendTestSetLabel. rewrite E1. reflexivity.
  - intros c answer w Hin.
    destruct (server_tick_spec t) as (b & Eb & ->).
    rewrite E2 in Eb. injection Eb as <-.
    unfold serverTick. rewrite (existsb_eqb_In c _ Hin). reflexivity.
Qed.

Lemma tick_frame_witness :
  ServerGo.sendTestSetLabel (Some 0) (time.mkTime 45296 0) None
    (mkWorld None None false [0] 1 1 [] [])
  = (Return tt,
     add_wire (mkWritten 0 (postRequest (Some (labelText "12:34:56"))) None)
              (mkWorld None None false [0] 1 1 [] [])).
Proof.
  apply (proj2 (proj2 (proj2 (tick_frame (time.mkTime 45296 0)))) 0 None
           (mkWorld None None false [0] 1 1 [] [])).
  left. reflexivity.
Defined.

Lemma server_tick_frame (c : fd) (t : time.Time) (answer : option error) (w : World) :
  In c (open w) ->
  exists w',
    ServerGo.sendTestSetLabel (Some c) t answer w = (Return tt, w')
    /\ open w' = open w /\ dials w' = dials w
    /\ wire w' = labelFrame c (time.Format time.layout_15_04_05 t) answer :: wire w.
Proof.
  intros Hin. destruct (server_tick_spec t) as (b & Eb & E).
  rewrite (proj2 (label_bytes t)) in Eb. injection Eb as <-.
  exists (serverTick c (Some (labelText (time.Format time.layout_15_04_05 t))) answer w).
  split; [apply E |]. apply serverTick_effect, Hin.
Qed.

(** The ticker goroutine of server.go writes exactly one frame per tick, in
    the order of the ticks, each on the connection it was given and each
    the label of its tick; a failed write stops nothing and dials nothing. *)
Theorem server_go_ticker_frames (c : fd) (ticks : list (time.Time * option error)) :
  forall w,
    In c (open w) ->
    exists w',
      ServerGo.ticker (Some c) ticks w = (Return tt, w')
      /\ open w' = open w /\ dials w' = dials w
      /\ wire w'
         = (rev (map (fun t => labelFrame c (time.Format time.layout_15_04_05 (fst t))
                                  (snd t)) ticks)
            ++ wire w)%list.
Proof.
  induction ticks as [| [now answer] ticks IH]; intros w Hin.
  - exists w. repeat split.
  - destruct (server_tick_frame c now answer w Hin) as (w1 & E1 & Eo1 & Ed1 & Ew1).
    destruct (IH w1) as (w' & E' & Eo' & Ed' & Ew'); [rewrite Eo1; exact Hin |].
    exists w'. cbn [ServerGo.ticker]. unfold bind. rewrite E1.
    split; [exact E' |]. split; [congruence |]. split; [congruence |].
    rewrite Ew', Ew1. cbn [map rev fst snd]. rewrite <- app_assoc. reflexivity.
Qed.

Lemma server_go_ticker_frames_witness :
  exists w',
    ServerGo.ticker (Some 0)
      [(time.mkTime 0 0, Some "broken pipe"); (time.mkTime 1 0, None)]
      (mkWorld None None false [0] 1 1 [] [])
    = (Return tt, w')
    /\ wire w' = [labelFrame 0 "00:00:01" None; labelFrame 0 "00:00:00" (Some "broken pipe")].
Proof.
  destruct (server_go_ticker_frames 0
              [(time.mkTime 0 0, Some "broken pipe"); (time.mkTime 1 0, None)]
              (mkWorld None None false [0] 1 1 [] []))
    as (w' & E & _ & _ & Ew).
  - left. reflexivity.
  - exists w'. split; [exact E | exact Ew].
Defined.

Lemma server_go_run_wire (Decode : Decoder) (c : fd) (es : list ServerGo.Event) :
  forall w,
    In c (open w) ->
    exists w',
      ServerGo.run Decode (ServerGo.Running (Some c) w) es = ServerGo.Running (Some c) w'
      /\ open w' = open w
      /\ wire w'
         = (rev (map (fun t => labelFrame c (time.Format time.layout_15_04_05 (fst t))
                                  (snd t)) (ticksOf es))
            ++ wire w)%list.
Proof.
  induction es as [| e es IH]; intros w Hin.
  - exists w. repeat split.
  - unfold ServerGo.run. cbn [fold_left]. fold (ServerGo.run Decode).
    destruct e as [now answer | body | body |]; cbn [ServerGo.deliver ticksOf].
    + destruct (server_tick_frame c now answer w Hin) as (w1 & -> & Eo1 & _ & Ew1).
      cbn [fst]. destruct (IH w1) as (w' & E' & Eo' & Ew'); [rewrite Eo1; exact Hin |].
      exists w'. split; [exact E' |]. split; [congruence |].
      rewrite Ew', Ew1. cbn [map rev fst snd]. rewrite <- app_assoc. reflexivity.
    + change (ServerGo.replyButtonHandler Decode http.newWriter body w)
        with (Part000.replyButtonHandler Decode http.newWriter body w).
      destruct (button_answers Decode body w)
        as (rw & w1 & -> & _ & _ & _ & _ & Eo1 & _ & _ & Ew1).
      cbn [fst]. destruct (IH w1) as (w' & E' & Eo' & Ew'); [rewrite Eo1; exact Hin |].
      exists w'. split; [exact E' |]. split; congruence.
    + change (ServerGo.replySliderHandler Decode http.newWriter body w)
        with (Part000.replySliderHandler Decode http.newWriter body w).
      destruct (slider_answers Decode body w)
        as (rw & w1 & -> & _ & _ & _ & _ & Eo1 & _ & _ & Ew1).
      cbn [fst]. destruct (IH w1) as (w' & E' & Eo' & Ew'); [rewrite Eo1; exact Hin |].
      exists w'. split; [exact E' |]. split; congruence.
    + cbn. apply IH, Hin.
Qed.

(** All that server.go ever sends to the processor: after every sequence
    of ticks and requests, the writes are one label frame per tick, in tick
    order, on the socket of [main]; requests add none. *)
Theorem server_go_sends_only_labels (Decode : Decoder) (es : list ServerGo.Event) :
  exists w,
    ServerGo.run Decode (ServerGo.main None None initial) es
    = ServerGo.Running (Some 0) w
    /\ wire w
       = rev (map (fun t => labelFrame 0 (time.Format time.layout_15_04_05 (fst t))
                                (snd t)) (ticksOf es)).
Proof.
  destruct (server_go_run_wire Decode 0 es
              (add_stdout (Println ["Starting server at"; ServerGo.ServerAddr])
                 (mkWorld None None false [0] 1 1 [] [])))
    as (w & E & _ & Ew).
  - left. reflexivity.
  - exists w. split; [exact E |]. rewrite Ew. apply app_nil_r.
Qed.

Lemma tick_rest (now : time.Time) (env : Env) (w : World) :
  AtRest w ->
  Part000.sendTestSetLabel now env w
  = (Return tt,
     afterSend env (Some (labelText (time.Format time.layout_15_04_05_00 now))) w).
Proof.
  intros R. unfold Part000.sendTestSetLabel. rewrite (proj1 (label_bytes now)).
  apply send_rest, R.
Qed.

Lemma afterSend_bounds env data (w : World) :
  dials (afterSend env data w) <= S (dials w)
  /\ length (wire (afterSend env data w)) <= S (length (wire w)).
Proof.
  unfold afterSend, acquired, written.
  destruct (conn w) eqn:E; cbn [conn]; rewrite ?E.
  - destruct (write env); cbn; lia.
  - destruct (dial env); cbn; [lia |]. destruct (write env); cbn; lia.
Qed.

Lemma ticker_is_the_ticks (Decode : Decoder) (ticks : list (time.Time * Env)) :
  forall w w',
    Part000.startTicker ticks w = (Return tt, w') ->
    AtRest w ->
    Part000.run Decode (Part000.Running true w)
      (map (fun t => Part000.Tick (fst t) (snd t)) ticks)
    = Part000.Running true w'.
Proof.
  induction ticks as [| [now env] ticks IH]; intros w w' E R.
  - injection E as <-. reflexivity.
  - cbn [Part000.startTicker] in E. unfold bind in E.
    unfold Part000.run. cbn [map fold_left fst snd Part000.deliver].
    rewrite (tick_rest now env w R) in E |- *. cbn [fst].
    apply IH; [exact E | apply rest_afterSend, R].
Qed.

Lemma afterSend_wire env data (w : World) :
  wire (afterSend env data w) = wire w
  \/ exists c, wire (afterSend env data w)
               = mkWritten c (postRequest data) (write env) :: wire w.
Proof.
  unfold afterSend, acquired, written.
  destruct (conn w) as [c |] eqn:E; cbn [conn]; rewrite ?E.
  - right. exists c. destruct (write env); reflexivity.
  - destruct (dial env); [left; reflexivity |].
    right. exists (next w). destruct (write env); reflexivity.
Qed.

Lemma ticker_runs (ticks : list (time.Time * Env)) :
  forall w,
    AtRest w ->
    exists w',
      Part000.startTicker ticks w = (Return tt, w')
      /\ AtRest w'
      /\ w' = Part000.execAll (map (fun t => Part000.OpTick (fst t) (snd t)) ticks) w
      /\ dials w' <= dials w + length ticks
      /\ length (wire w') <= length (wire w) + length ticks.
Proof.
  induction ticks as [| [now env] ticks IH]; intros w R.
  - exists w. repeat split; try apply R; cbn; lia.
  - pose proof (tick_rest now env w R) as E1.
    set (w1 := afterSend env (Some (labelText (time.Format time.layout_15_04_05_00 now))) w)
      in *.
    assert (AtRest w1) as R1 by (apply rest_afterSend, R).
    destruct (IH w1 R1) as (w' & E' & R' & Ex & Hd & Hw).
    destruct (afterSend_bounds env
                (Some (labelText (time.Format time.layout_15_04_05_00 now))) w) as (B1 & B2).
    fold w1 in B1, B2.
    exists w'. cbn [Part000.startTicker]. unfold bind. rewrite E1.
    split; [exact E' |]. split; [exact R' |]. split.
    + cbn [map Part000.execAll fold_left Part000.exec fst snd]. rewrite E1. exact Ex.
    + cbn [length]. lia.
Qed.

(** The ticker of part_000 gets through every tick: whatever the dials and
    the writes answer, each [sendTestSetLabel] returns and the next tick is
    served, from every state at rest to a state at rest.  The loop does
    what its ticks do one after the other, which is what the ticks do to
    the serving process, and n ticks make at most n dials and n writes. *)
Theorem ticker_gets_through (ticks : list (time.Time * Env)) (w : World) :
  AtRest w ->
  exists w',
    Part000.startTicker ticks w = (Return tt, w')
    /\ AtRest w'
    /\ w' = Part000.execAll (map (fun t => Part000.OpTick (fst t) (snd t)) ticks) w
    /\ (forall Decode : Decoder,
          Part000.run Decode (Part000.Running true w)
            (map (fun t => Part000.Tick (fst t) (snd t)) ticks)
          = Part000.Running true w')
    /\ dials w' <= dials w + length ticks
    /\ length (wire w') <= length (wire w) + length ticks.
Proof.
  intros R. destruct (ticker_runs ticks w R) as (w' & E & R' & Ex & Hd & Hw).
  exists w'. split; [exact E |]. split; [exact R' |]. split; [exact Ex |].
  split; [| split; assumption].
  intros Decode. apply ticker_is_the_ticks; assumption.
Qed.

Lemma ticker_gets_through_witness :
  exists w',
    Part000.startTicker
      [(time.mkTime 0 0, mkEnv (Some "connection refused") None);
       (time.mkTime 0 20000000, mkEnv None (Some "broken pipe"));
       (time.mkTime 0 40000000, mkEnv None None)] initial
    = (Return tt, w')
    /\ AtRest w'.
Proof.
  destruct (ticker_gets_through
              [(time.mkTime 0 0, mkEnv (Some "connection refused") None);
               (time.mkTime 0 20000000, mkEnv None (Some "broken pipe"));
               (time.mkTime 0 40000000, mkEnv None None)] initial)
    as (w' & E & R & _).
  - split; reflexivity.
  - exists w'. split; assumption.
Defined.

Lemma healthy_connected (c : fd) (ticks : list (time.Time * Env)) :
  forall w,
    AtRest w -> conn w = Some c ->
    Forall (fun t => healthy (snd t)) ticks ->
    exists w',
      Part000.startTicker ticks w = (Return tt, w')
      /\ conn w' = Some c /\ open w' = [c] /\ dials w' = dials w
      /\ wire w'
         = (rev (map (fun t => labelFrame c (time.Format time.layout_15_04_05_00 (fst t))
                                  None) ticks)
            ++ wire w)%list.
Proof.
  induction ticks as [| [now env] ticks IH]; intros w R Hc Hh.
  - exists w. split; [reflexivity |]. split; [exact Hc |].
    destruct R as (_ & Ho). rewrite Hc in Ho. repeat split. exact Ho.
  - inversion Hh as [| t ts (Hd & Hw) Hrest]; subst. cbn [snd] in *.
    pose proof (tick_rest now env w R) as E1.
    assert (afterSend env (Some (labelText (time.Format time.layout_15_04_05_00 now))) w
            = add_wire (labelFrame c (time.Format time.layout_15_04_05_00 now) None) w) as Ea.
    { unfold afterSend, acquired. rewrite Hc. cbn [conn]. rewrite Hc.
      unfold written. rewrite Hw. reflexivity. }
    rewrite Ea in E1.
    destruct (IH (add_wire (labelFrame c (time.Format time.layout_15_04_05_00 now) None) w))
      as (w' & E' & Hc' & Ho' & Hd' & Hw'); [apply rest_add_wire, R | exact Hc | exact Hrest |].
    exists w'. cbn [Part000.startTicker]. unfold bind. rewrite E1.
    split; [exact E' |]. split; [exact Hc' |]. split; [exact Ho' |].
    split; [exact Hd' |].
    rewrite Hw'. cbn [map rev fst add_wire wire]. rewrite <- app_assoc. reflexivity.
Qed.

(** On a healthy transport the ticker of part_000 dials at most once, at
    its first tick if it starts disconnected, and then writes the label of
    every tick, in tick order, on that one connection, which it keeps. *)
Theorem healthy_ticker_uses_one_connection
  (now : time.Time) (env : Env) (ticks : list (time.Time * Env)) (w : World) :
  AtRest w ->
  Forall (fun t => healthy (snd t)) ((now, env) :: ticks) ->
  let c := match conn w with Some c => c | None => next w end in
  exists w',
    Part000.startTicker ((now, env) :: ticks) w = (Return tt, w')
    /\ conn w' = Some c /\ open w' = [c]
    /\ dials w' = dials w + match conn w with Some _ => 0 | None => 1 end
    /\ wire w'
       = (rev (map (fun t => labelFrame c (time.Format time.layout_15_04_05_00 (fst t))
                                None) ((now, env) :: ticks))
          ++ wire w)%list.
Proof.
  intros R Hh c.
  destruct (conn w) as [c0 |] eqn:Hc.
  - destruct (healthy_connected c0 ((now, env) :: ticks) w R Hc Hh)
      as (w' & E & H1 & H2 & H3 & H4).
    exists w'. repeat split; try assumption. lia.
  - inversion Hh as [| t ts (Hd & Hw) Hrest]; subst. cbn [snd] in *.
    pose proof (tick_rest now env w R) as E1.
    assert (afterSend env (Some (labelText (time.Format time.layout_15_04_05_00 now))) w
            = add_wire (labelFrame (next w) (time.Format time.layout_15_04_05_00 now) None)
                       (dialled w)) as Ea.
    { unfold afterSend, acquired. rewrite Hc, Hd. cbn [conn dialled].
      unfold written. rewrite Hw. reflexivity. }
    rewrite Ea in E1.
    destruct (healthy_connected (next w) ticks
                (add_wire (labelFrame (next w) (time.Format time.layout_15_04_05_00 now) None)
                          (dialled w)))
      as (w' & E' & Hc' & Ho' & Hd' & Hw'); [repeat split | reflexivity | exact Hrest |].
    exists w'. cbn [Part000.startTicker]. unfold bind. rewrite E1.
    split; [exact E' |]. split; [exact Hc' |]. split; [exact Ho' |].
    split; [rewrite Hd'; cbn; lia |].
    rewrite Hw'. cbn [map rev fst add_wire wire dialled]. rewrite <- app_assoc. reflexivity.
Qed.

Lemma healthy_ticker_uses_one_connection_witness :
  exists w',
    Part000.startTicker
      [(time.mkTime 0 0, mkEnv None None); (time.mkTime 0 20000000, mkEnv None None)]
      initial
    = (Return tt, w')
    /\ conn w' = Some 0 /\ dials w' = 1
    /\ wire w' = [labelFrame 0 "00:00:00.02" None; labelFrame 0 "00:00:00.00" None].
Proof.
  destruct (healthy_ticker_uses_one_connection (time.mkTime 0 0) (mkEnv None None)
              [(time.mkTime 0 20000000, mkEnv None None)] initial)
    as (w' & E & Hc & _ & Hd & Hw).
  - split; reflexivity.
  - repeat constructor.
  - exists w'. repeat split; assumption.
Defined.

(** ** Goroutines: no panic, no deadlock, bounded work *)

Lemma step_alive (g : Part000.Goroutine) (w : World) :
  AtRest w -> Alive g ->
  Alive (fst (Part000.step g w))
  /\ AtRest (snd (Part000.step g w))
  /\ stretchesLeft (fst (Part000.step g w)) <= stretchesLeft g
  /\ (g <> Part000.Finished ->
      stretchesLeft (fst (Part000.step g w)) < stretchesLeft g).
Proof.
  intros R A. destruct g as [env data | c req answer | | |]; cbn [Part000.step].
  - rewrite getConn_rest by assumption. unfold Part000.after.
    pose proof (rest_acquired (dial env) w R) as R1. revert R1. unfold acquired.
    destruct (conn w) as [c |] eqn:Ec, (dial env) as [e |]; intros R1; cbn;
      rewrite ?Ec; cbn; repeat split; trivial; try lia; try apply R1.
  - destruct c as [f |]; [| destruct A]. cbn.
    destruct (if existsb (Nat.eqb f) (open w) then answer else Some errClosed); cbn;
      repeat split; try lia; apply R.
  - rewrite closeConn_rest by assumption. cbn.
    split; [exact I |]. split; [apply rest_closed, R |]. split; [lia | intros _; lia].
  - split; [exact I |]. split; [exact R |]. split; [cbn; lia |].
    intros H; contradiction H; reflexivity.
  - destruct A.
Qed.

Lemma resume_alive (gs : list Part000.Goroutine) :
  forall i w,
    AtRest w -> Forall Alive gs ->
    Forall Alive (fst (Part000.resume i gs w))
    /\ AtRest (snd (Part000.resume i gs w))
    /\ workLeft (fst (Part000.resume i gs w)) <= workLeft gs
    /\ (nth i gs Part000.Finished <> Part000.Finished ->
        workLeft (fst (Part000.resume i gs w)) < workLeft gs).
Proof.
  induction gs as [| g gs IH]; intros i w R A.
  - assert (Part000.resume i [] w = ([], w)) as -> by (destruct i; reflexivity).
    cbn [fst snd]. split; [constructor |]. split; [exact R |]. split; [cbn; lia |].
    intros H. contradiction H. destruct i; reflexivity.
  - inversion A as [| g0 gs0 Ag Ags]; subst.
    destruct i as [| j]; cbn [Part000.resume nth].
    + destruct (step_alive g w R Ag) as (A1 & R1 & L & S).
      destruct (Part000.step g w) as [g' w']. cbn [fst snd] in *.
      split; [constructor; assumption |]. split; [exact R1 |].
      cbn [workLeft].
      split; [lia | intros H; specialize (S H); lia].
    + destruct (IH j w R Ags) as (A1 & R1 & L & S).
      destruct (Part000.resume j gs w) as [gs' w']. cbn [fst snd] in *.
      split; [constructor; assumption |]. split; [exact R1 |].
      cbn [workLeft].
      split; [lia | intros H; specialize (S H); lia].
Qed.

Lemma schedule_alive (cs : list Part000.Choice) :
  forall s,
    AtRest (snd s) -> Forall Alive (fst s) ->
    AtRest (snd (Part000.schedule cs s)) /\ Forall Alive (fst (Part000.schedule cs s)).
Proof.
  induction cs as [| c cs IH]; intros s R A; [split; assumption |].
  cbn [Part000.schedule fold_left]. apply IH.
  - destruct c as [env data | i]; cbn [Part000.schedule1 snd]; [exact R |].
    apply resume_alive; assumption.
  - destruct c as [env data | i]; cbn [Part000.schedule1 fst].
    + apply Forall_app. split; [exact A |]. constructor; [exact I | constructor].
    + apply resume_alive; assumption.
Qed.

(** Under every interleaving no goroutine of [sendToProcessor] panics or
    blocks for ever on the mutex, and a goroutine about to write holds a
    connection that is not nil. *)
Theorem goroutines_never_die (cs : list Part000.Choice) :
  Forall Alive (fst (Part000.schedule cs ([], initial)))
  /\ Forall (fun g => g <> Part000.Dead) (fst (Part000.schedule cs ([], initial))).
Proof.
  destruct (schedule_alive cs ([], initial)) as (_ & A).
  - split; reflexivity.
  - constructor.
  - split; [exact A |]. apply (Forall_impl _ (P := Alive)); [| exact A].
    intros g Ag ->. exact Ag.
Qed.

(** Every resumption of a goroutine that is not finished takes one of the
    at most three stretches it has left, whatever the other goroutines have
    done in between; so a goroutine is finished after at most three of its
    own turns, and a pool after at most three turns per goroutine. *)
Theorem goroutines_finish (cs : list Part000.Choice) (i : nat) :
  let s := Part000.schedule cs ([], initial) in
  let s' := Part000.resume i (fst s) (snd s) in
  workLeft (fst s') <= workLeft (fst s)
  /\ (nth i (fst s) Part000.Finished <> Part000.Finished ->
      workLeft (fst s') < workLeft (fst s))
  /\ Forall (fun g => stretchesLeft g <= 3) (fst s).
Proof.
  intros s s'. destruct (schedule_alive cs ([], initial)) as (R & A);
    [split; reflexivity | constructor |].
  fold s in R, A.
  destruct (resume_alive (fst s) i (snd s) R A) as (_ & _ & L & S).
  split; [exact L |]. split; [exact S |].
  apply Forall_forall. intros g _. destruct g; cbn; lia.
Qed.

Lemma goroutines_finish_witness :
  workLeft (fst (Part000.resume 0
                   (fst (Part000.schedule [Part000.Spawn (mkEnv None None) (Some "x")]
                           ([], initial)))
                   (snd (Part000.schedule [Part000.Spawn (mkEnv None None) (Some "x")]
                           ([], initial)))))
  < 3.
Proof.
  apply (proj1 (proj2 (goroutines_finish
                         [Part000.Spawn (mkEnv None None) (Some "x")] 0))).
  discriminate.
Defined.

(** ** All that is sent to the processor *)

Lemma part000_run_wire (Decode : Decoder) (es : list Part000.Event) :
  forall w,
    AtRest w ->
    exists w' sent,
      Part000.run Decode (Part000.Running true w) es = Part000.Running true w'
      /\ AtRest w'
      /\ wire w' = (sent ++ wire w)%list
      /\ Forall (fun x => exists now env c,
                     In (Part000.Tick now env) es
                     /\ x = labelFrame c (time.Format time.layout_15_04_05_00 now)
                                       (write env)) sent.
Proof.
  induction es as [| e es IH]; intros w R.
  - exists w, []. split; [reflexivity |]. split; [exact R |].
    split; [reflexivity | constructor].
  - assert (forall w1 new,
              AtRest w1 -> wire w1 = (new ++ wire w)%list ->
              Forall (fun x => exists now env c,
                          In (Part000.Tick now env) (e :: es)
                          /\ x = labelFrame c (time.Format time.layout_15_04_05_00 now)
                                            (write env)) new ->
              fst (Part000.deliver Decode (Part000.Running true w) e)
              = Part000.Running true w1 ->
              exists w' sent,
                Part000.run Decode (Part000.Running true w) (e :: es)
                = Part000.Running true w'
                /\ AtRest w'
                /\ wire w' = (sent ++ wire w)%list
                /\ Forall (fun x => exists now env c,
                               In (Part000.Tick now env) (e :: es)
                               /\ x = labelFrame c
                                        (time.Format time.layout_15_04_05_00 now)
                                        (write env)) sent) as K.
    { intros w1 new R1 Ew Fn Ed.
      destruct (IH w1 R1) as (w' & sent & E' & R' & Ew' & Fs).
      exists w', (sent ++ new)%list.
      unfold Part000.run. cbn [fold_left]. fold (Part000.run Decode). rewrite Ed.
      split; [exact E' |]. split; [exact R' |].
      split; [rewrite Ew', Ew; apply app_assoc |].
      apply Forall_app. split; [| exact Fn].
      apply (Forall_impl _ (P := fun x => exists now env c,
                                    In (Part000.Tick now env) es
                                    /\ x = labelFrame c
                                             (time.Format time.layout_15_04_05_00 now)
                                             (write env))); [| exact Fs].
      intros x (now & env & c & Hin & Hx). exists now, env, c.
      split; [right; exact Hin | exact Hx]. }
    destruct e as [now env | body | body |].
    + cbn [Part000.deliver] in K. rewrite (tick_rest now env w R) in K. cbn [fst] in K.
      pose proof (rest_afterSend env
                    (Some (labelText (time.Format time.layout_15_04_05_00 now))) w R) as R1.
      destruct (afterSend_wire env
                  (Some (labelText (time.Format time.layout_15_04_05_00 now))) w)
        as [Ew | (c & Ew)].
      * apply (K _ [] R1 Ew); [constructor | reflexivity].
      * apply (K _ [labelFrame c (time.Format time.layout_15_04_05_00 now) (write env)]
                 R1 Ew); [| reflexivity].
        constructor; [| constructor]. exists now, env, c.
        split; [left; reflexivity | reflexivity].
    + cbn [Part000.deliver] in K.
      destruct (button_answers Decode body w)
        as (rw & w1 & E & _ & E1 & _ & E2 & E3 & _ & _ & Ew).
      rewrite E in K. cbn [fst] in K.
      apply (K w1 []); [| exact Ew | constructor | reflexivity].
      destruct R as (Rm & Ro). split; [congruence | rewrite E3, E1; exact Ro].
    + cbn [Part000.deliver] in K.
      destruct (slider_answers Decode body w)
        as (rw & w1 & E & _ & E1 & _ & E2 & E3 & _ & _ & Ew).
      rewrite E in K. cbn [fst] in K.
      apply (K w1 []); [| exact Ew | constructor | reflexivity].
      destruct R as (Rm & Ro). split; [congruence | rewrite E3, E1; exact Ro].
    + apply (K w []); [exact R | reflexivity | constructor | reflexivity].
Qed.

(** All that part_000 ever sends to the processor: after every sequence of
    ticks and requests, every write on the wire is the label frame of one
    of the ticks, with the answer of the peer during that tick as its
    result; requests add none. *)
Theorem part000_sends_only_labels (Decode : Decoder) (es : list Part000.Event) :
  exists w,
    Part000.run Decode (Part000.main None initial) es = Part000.Running true w
    /\ Forall (fun x => exists now env c,
                   In (Part000.Tick now env) es
                   /\ x = labelFrame c (time.Format time.layout_15_04_05_00 now)
                                     (write env)) (wire w).
Proof.
  destruct (part000_run_wire Decode es
              (add_stdout (Println ["Starting server at"; Part000.ServerAddr]) initial))
    as (w & sent & E & _ & Ew & F).
  - split; reflexivity.
  - exists w. split; [exact E |]. rewrite Ew. cbn [wire add_stdout initial].
    rewrite app_nil_r. exact F.
Qed.
